(** * Capacity planning service: forecasting loop and capacity advisor

    A shallow embedding of [capacity_planner.py], [model_service.py] and the
    request handler of [app.py].

    Number models.  The file holds two readings of Python's floats.

    - Exact ([Num], [CapacityPlanner], [Service], [App]): a float is a
      rational ([Q]); comparisons, [max], [int()] and the division guards are
      kept as written, and a division by zero raises as in Python.  Rounding
      and overflow do not occur.  This reading carries the properties that
      rest on order alone (bounds, monotonicity, counting, grouping) and the
      loop of the forecaster.
    - Binary64 ([Binary64]): a float is a primitive IEEE 754 double, every
      operation rounds as Python's does, quotients can overflow to infinity
      and [int()] raises on infinity and NaN.  [get_recommendations] is
      embedded a second time in this reading; what is stated about the values
      it computes and about when it returns is stated there.

    Time model.  A timestamp is the number of nanoseconds since the epoch
    (a naive [pd.Timestamp]); its ISO-8601 rendering is an order-preserving
    injection and is left out, so forecast points carry the timestamp itself. *)

From Stdlib Require Import ZArith QArith Qround List String Bool Lia Lqa.
From Stdlib Require PrimFloat FloatOps SpecFloat.
Import ListNotations.

Set Warnings "-inexact-float".

Open Scope Q_scope.

(** ** Python results *)

Inductive PyExn : Set :=
  | ZeroDivisionError
  | OverflowError
  | ValueError
  | IndexError.

Inductive result (A : Type) : Type :=
  | Ok (a : A)
  | Raise (e : PyExn).

Arguments Ok {A} a.
Arguments Raise {A} e.

Definition bind {A B : Type} (m : result A) (k : A -> result B) : result B :=
  match m with
  | Ok a => k a
  | Raise e => Raise e
  end.

Notation "x <- m ;; k" := (bind m (fun x => k))
  (at level 61, m at next level, right associativity).

Fixpoint mapM {A B : Type} (f : A -> result B) (l : list A) : result (list B) :=
  match l with
  | [] => Ok []
  | a :: t => b <- f a ;; bs <- mapM f t ;; Ok (b :: bs)
  end.

(** What a function hands back as its dictionary: the data, or the
    [{'error': ...}] dictionary. *)
Inductive Reply (A : Type) : Type :=
  | Data (a : A)
  | ErrorReply (msg : string).

Arguments Data {A} a.
Arguments ErrorReply {A} msg.

(** ** Numbers *)

Module Num.

(** [x >= y], [x > y], [x < y] of Python. *)
Definition geb (x y : Q) : bool := Qle_bool y x.
Definition ltb (x y : Q) : bool := negb (Qle_bool y x).
Definition gtb (x y : Q) : bool := ltb y x.

(** [x / y] on Python floats, exact: the quotient is not rounded and cannot
    overflow ([Binary64.truediv] is the rounded one). *)
Definition truediv (x y : Q) : result Q :=
  if Qeq_bool y 0 then Raise ZeroDivisionError else Ok (x / y).

(** NumPy floats, where the source divides one without a guard; exact, so
    [Inf] and [NaN] arise from a zero divisor only. *)
Inductive npfloat : Set :=
  | Finite (q : Q)
  | Inf
  | NaN.

Definition np_truediv (x y : Q) : npfloat :=
  if Qeq_bool y 0 then (if Qeq_bool x 0 then NaN else Inf) else Finite (x / y).

(** Product with a non-zero finite constant. *)
Definition np_mul (x : npfloat) (k : Q) : npfloat :=
  match x with
  | Finite q => Finite (q * k)
  | Inf => Inf
  | NaN => NaN
  end.

(** [int(x)]: truncation toward zero. *)
Definition trunc (x : Q) : Z := Z.quot (Qnum x) (Zpos (Qden x)).

Definition py_int (x : Q) : Z := trunc x.

Definition np_int (x : npfloat) : result Z :=
  match x with
  | Finite q => Ok (trunc q)
  | Inf => Raise OverflowError
  | NaN => Raise ValueError
  end.

(** [max(a, b)] and [max(l)], [min(l)]: the first extremal element stays. *)
Definition max2 (a b : Q) : Q := if gtb b a then b else a.
Definition min2 (a b : Q) : Q := if ltb b a then b else a.

Definition py_max (l : list Q) : result Q :=
  match l with
  | [] => Raise ValueError
  | x :: t => Ok (fold_left max2 t x)
  end.

Definition py_min (l : list Q) : result Q :=
  match l with
  | [] => Raise ValueError
  | x :: t => Ok (fold_left min2 t x)
  end.

Definition np_sum (l : list Q) : Q := fold_left Qplus l 0.

Definition len {A : Type} (l : list A) : Z := Z.of_nat (List.length l).

(** [np.mean(l)] of a non-empty list, exact: the sum is not rounded, so the
    result lies between the extremes of [l], which NumPy's need not. *)
Definition np_mean (l : list Q) : Q := np_sum l / inject_Z (len l).

End Num.

(** ** Time *)

Definition Timestamp : Set := Z.

Definition ns_per_hour : Z := 3600000000000%Z.

(** [timedelta(hours=n)] *)
Definition hours (n : Z) : Z := (n * ns_per_hour)%Z.

(** [ts.hour] *)
Definition hour_of (ts : Timestamp) : Z := ((ts / ns_per_hour) mod 24)%Z.

(** [ts.dayofweek]: Monday is 0; the epoch was a Thursday. *)
Definition dayofweek (ts : Timestamp) : Z :=
  ((ts / (24 * ns_per_hour) + 3) mod 7)%Z.

(** ** Data model *)

Record ForecastPoint : Set := mkPoint {
  timestamp : Timestamp;
  predicted_load : Q
}.

Inductive Action : Set := scale_up | scale_down | maintain.

(** The strings ['low'], ['medium'], ['high'], ['critical'] of urgency, risk
    level and cost impact. *)
Inductive Level : Set := low | medium | high | critical.

Record Metrics : Set := mkMetrics {
  max_predicted_load : Q;
  avg_predicted_load : Q;
  min_predicted_load : Q;
  max_utilization : Q;
  avg_utilization : Q
}.

(** The parameters the message template is filled with; the wording is left
    out. *)
Inductive Message : Set :=
  | MsgScaleUp (change change_pct recommended utilization : Q)
  | MsgScaleDown (change change_pct recommended : Q)
  | MsgMaintain (current utilization : Q).

Record Recommendation : Set := mkRecommendation {
  action : Action;
  urgency : Level;
  current_capacity : Q;
  recommended_capacity : Q;
  capacity_change : Q;
  capacity_change_percent : Q;
  metrics : Metrics;
  peak_hours : list ForecastPoint;
  message : Message
}.

Record Scenario : Set := mkScenario {
  capacity : Z;
  description : string;
  cost_impact : Level
}.

Record Scenarios : Set := mkScenarios {
  conservative : Scenario;
  balanced : Scenario;
  aggressive : Scenario;
  average_based : Scenario
}.

(** ** CapacityPlanner *)

Module CapacityPlanner.

Import Num.

Definition _generate_message (action : Action) (urgency : Level)
    (utilization recommended current : Q) : Message :=
  match action with
  | scale_up =>
      let change := recommended - current in
      let change_pct := if gtb current 0 then change / current * 100 else 0 in
      MsgScaleUp change change_pct recommended utilization
  | scale_down =>
      let change := current - recommended in
      let change_pct := if gtb current 0 then change / current * 100 else 0 in
      MsgScaleDown change change_pct recommended
  | maintain => MsgMaintain current utilization
  end.

Definition get_recommendations (forecast : list ForecastPoint)
    (current_capacity scaling_threshold : Q)
    : result (Reply Recommendation) :=
  match forecast with
  | [] => Ok (ErrorReply "No forecast data provided")
  | _ :: _ =>
      let predicted_loads := map predicted_load forecast in
      max_predicted <- py_max predicted_loads ;;
      let avg_predicted := np_mean predicted_loads in
      min_predicted <- py_min predicted_loads ;;
      let max_utilization :=
        if gtb current_capacity 0 then max_predicted / current_capacity else 0 in
      let avg_utilization :=
        if gtb current_capacity 0 then avg_predicted / current_capacity else 0 in
      decision <-
        (if geb max_utilization scaling_threshold then
           q <- truediv max_predicted scaling_threshold ;;
           Ok (scale_up,
               (if geb max_utilization 0.95 then high else medium),
               inject_Z (py_int (q * 1.1)))
         else if ltb avg_utilization 0.3 then
           n <- np_int (np_mul (np_truediv avg_predicted scaling_threshold) 1.2) ;;
           Ok (scale_down, low, inject_Z n)
         else
           Ok (maintain, low, current_capacity)) ;;
      let '(action, urgency, recommended_capacity) := decision in
      let peak_hours :=
        filter (fun f => geb (predicted_load f) (max_predicted * 0.9)) forecast in
      Ok (Data {|
        action := action;
        urgency := urgency;
        current_capacity := current_capacity;
        recommended_capacity := recommended_capacity;
        capacity_change := recommended_capacity - current_capacity;
        capacity_change_percent :=
          if gtb current_capacity 0
          then (recommended_capacity - current_capacity) / current_capacity * 100
          else 0;
        metrics := {|
          max_predicted_load := max_predicted;
          avg_predicted_load := avg_predicted;
          min_predicted_load := min_predicted;
          max_utilization := max_utilization;
          avg_utilization := avg_utilization
        |};
        peak_hours := firstn 10 peak_hours;
        message := _generate_message action urgency max_utilization
                     recommended_capacity current_capacity
      |})
  end.

Definition _assess_risk (critical_hours over_capacity_hours total_hours : Z)
    : Level :=
  let critical_pct :=
    if (total_hours >? 0)%Z
    then inject_Z critical_hours / inject_Z total_hours else 0 in
  let over_capacity_pct :=
    if (total_hours >? 0)%Z
    then inject_Z over_capacity_hours / inject_Z total_hours else 0 in
  if gtb critical_pct 0.1 then critical
  else if gtb over_capacity_pct 0.2 then high
  else if gtb over_capacity_pct 0.05 then medium
  else low.

Definition _generate_scenarios (forecast : list ForecastPoint)
    (current_capacity scaling_threshold : Q) : result Scenarios :=
  let predicted_loads := map predicted_load forecast in
  max_load <- py_max predicted_loads ;;
  let avg_load := np_mean predicted_loads in
  c <- truediv max_load scaling_threshold ;;
  b <- truediv max_load scaling_threshold ;;
  a <- truediv max_load scaling_threshold ;;
  v <- np_int (np_mul (np_truediv avg_load scaling_threshold) 1.5) ;;
  Ok {|
    conservative := {|
      capacity := py_int (c * 1.2);
      description := "20% buffer above peak load";
      cost_impact := high |};
    balanced := {|
      capacity := py_int (b * 1.1);
      description := "10% buffer above peak load";
      cost_impact := medium |};
    aggressive := {|
      capacity := py_int a;
      description := "Exact capacity for peak load";
      cost_impact := low |};
    average_based := {|
      capacity := v;
      description := "Capacity based on average load";
      cost_impact := low |}
  |}.

(** *** analyze *)

Record Summary : Set := mkSummary {
  forecast_period_hours : Z;
  summary_current_capacity : Q;
  summary_scaling_threshold : Q
}.

Record LoadStatistics : Set := mkLoadStatistics {
  max_load : Q;
  min_load : Q;
  avg_load : Q;
  std_load : Q
}.

Record UtilizationStatistics : Set := mkUtilizationStatistics {
  stat_max_utilization : Q;
  stat_avg_utilization : Q;
  stat_min_utilization : Q
}.

Record RiskAssessment : Set := mkRiskAssessment {
  over_capacity_hours : Z;
  critical_hours : Z;
  under_utilized_hours : Z;
  risk_level : Level
}.

Record HourlyPatterns : Set := mkHourlyPatterns {
  peak_hour : Z;
  low_hour : Z;
  avg_load_by_hour : list (Z * Q)
}.

Record Analysis : Set := mkAnalysis {
  summary : Summary;
  load_statistics : LoadStatistics;
  utilization_statistics : UtilizationStatistics;
  risk_assessment : RiskAssessment;
  hourly_patterns : HourlyPatterns;
  recommendations : Reply Recommendation;
  scaling_scenarios : Scenarios
}.

(** [d[k].append(v)], with [d[k] = []] first when [k] is new; a dict keeps
    its keys in insertion order. *)
Fixpoint dict_append (k : Z) (v : Q) (d : list (Z * list Q))
    : list (Z * list Q) :=
  match d with
  | [] => [(k, [v])]
  | (k', vs) :: t =>
      if (k =? k')%Z then (k', vs ++ [v]) :: t
      else (k', vs) :: dict_append k v t
  end.

(** [max(items, key=lambda x: x[1])] and [min(...)]. *)
Definition max_by_value (items : list (Z * Q)) : result (Z * Q) :=
  match items with
  | [] => Raise ValueError
  | x :: t => Ok (fold_left (fun m y => if gtb (snd y) (snd m) then y else m) t x)
  end.

Definition min_by_value (items : list (Z * Q)) : result (Z * Q) :=
  match items with
  | [] => Raise ValueError
  | x :: t => Ok (fold_left (fun m y => if ltb (snd y) (snd m) then y else m) t x)
  end.

(** [sum(1 for u in l if p(u))] *)
Definition count_if (p : Q -> bool) (l : list Q) : Z := len (filter p l).

Section Analyze.

(** [np.sqrt], used by [np.std]. *)
Variable np_sqrt : Q -> Q.

Definition np_std (l : list Q) : Q :=
  let m := np_mean l in
  np_sqrt (np_mean (map (fun x => (x - m) * (x - m)) l)).

Definition analyze (forecast : list ForecastPoint)
    (current_capacity scaling_threshold : Q) : result (Reply Analysis) :=
  match forecast with
  | [] => Ok (ErrorReply "No forecast data provided")
  | _ :: _ =>
      let predicted_loads := map predicted_load forecast in
      max_load <- py_max predicted_loads ;;
      min_load <- py_min predicted_loads ;;
      let avg_load := np_mean predicted_loads in
      let std_load := np_std predicted_loads in
      utilizations <-
        mapM (fun load => truediv load current_capacity) predicted_loads ;;
      max_util <- py_max utilizations ;;
      let avg_util := np_mean utilizations in
      min_util <- py_min utilizations ;;
      let over_capacity_hours :=
        count_if (fun u => geb u scaling_threshold) utilizations in
      let critical_hours := count_if (fun u => geb u 0.95) utilizations in
      let under_utilized_hours := count_if (fun u => ltb u 0.3) utilizations in
      let hourly_patterns :=
        fold_left
          (fun d f => dict_append (hour_of (timestamp f)) (predicted_load f) d)
          forecast [] in
      let avg_by_hour :=
        map (fun kv => (fst kv, np_mean (snd kv))) hourly_patterns in
      peak <- max_by_value avg_by_hour ;;
      lowest <- min_by_value avg_by_hour ;;
      recommendations <-
        get_recommendations forecast current_capacity scaling_threshold ;;
      scenarios <-
        _generate_scenarios forecast current_capacity scaling_threshold ;;
      Ok (Data {|
        summary := {|
          forecast_period_hours := len forecast;
          summary_current_capacity := current_capacity;
          summary_scaling_threshold := scaling_threshold |};
        load_statistics := {|
          max_load := max_load;
          min_load := min_load;
          avg_load := avg_load;
          std_load := std_load |};
        utilization_statistics := {|
          stat_max_utilization := max_util;
          stat_avg_utilization := avg_util;
          stat_min_utilization := min_util |};
        risk_assessment := {|
          over_capacity_hours := over_capacity_hours;
          critical_hours := critical_hours;
          under_utilized_hours := under_utilized_hours;
          risk_level :=
            _assess_risk critical_hours over_capacity_hours (len forecast) |};
        hourly_patterns := {|
          peak_hour := fst peak;
          low_hour := fst lowest;
          avg_load_by_hour := avg_by_hour |};
        recommendations := recommendations;
        scaling_scenarios := scenarios
      |})
  end.

End Analyze.

End CapacityPlanner.

(** ** ModelService *)

(** [{current_count, lag_24, lag_168, hour, dayofweek}], the row
    [features] before scaling. *)
Record FeatureVector : Set := mkFeatures {
  current_count : Q;
  lag_24 : Q;
  lag_168 : Q;
  hour : Z;
  day_of_week : Z
}.

Record ForecastResult : Set := mkForecastResult {
  forecast_points : list ForecastPoint;
  hours_ahead : Z;
  start_timestamp : Timestamp
}.

Record ModelService : Set := mkModelService {
  is_model_loaded : bool
}.

Module Service.

Import Num.

Definition seq_length : Z := 48.

(** [l[-k]] for [k >= 1] *)
Definition index_from_end (l : list Q) (k : nat) : result Q :=
  if (k <=? List.length l)%nat
  then match nth_error l (List.length l - k) with
       | Some x => Ok x
       | None => Raise IndexError
       end
  else Raise IndexError.

(** [l[-k:]] *)
Definition last_n (l : list Q) (k : nat) : list Q :=
  skipn (List.length l - k) l.

(** [range(n)] *)
Definition range (n : Z) : list Z := map Z.of_nat (seq 0 (Z.to_nat n)).

(** [pd.date_range(start, end, freq='h')] for [start <= end] *)
Definition date_range (start end_ : Timestamp) : list Timestamp :=
  map (fun k => (start + hours k)%Z) (range ((end_ - start) / ns_per_hour + 1)).

(** The feature row of [_prepare_features] before the scalers are applied. *)
Definition raw_features (timestamp : Timestamp) (historical_counts : list Q)
    : result FeatureVector :=
  let hour := hour_of timestamp in
  let dayofweek := dayofweek timestamp in
  lag_24 <-
    (if (24 <=? len historical_counts)%Z
     then index_from_end historical_counts 24
     else index_from_end historical_counts 1) ;;
  lag_168 <-
    (if (168 <=? len historical_counts)%Z
     then index_from_end historical_counts 168
     else index_from_end historical_counts 1) ;;
  current_count <- index_from_end historical_counts 1 ;;
  Ok {| current_count := current_count; lag_24 := lag_24; lag_168 := lag_168;
        hour := hour; day_of_week := dayofweek |}.

Section Loaded.

(** The trained model on a 48 x 5 sequence, the two fitted scalers on a
    row, and the numerics of the synthetic history. *)
Variable model : list (list Q) -> Q.
Variable target_scaler_transform : Q * Q * Q -> Q * Q * Q.
Variable target_scaler_inverse_transform : Q * Q * Q -> Q * Q * Q.
Variable time_scaler_transform : Q * Q -> Q * Q.
Variable np_pi : Q.
Variable np_sin : Q -> Q.
(** The draws of [np.random.normal(0, 0.1)], in order. *)
Variable np_random_normal : nat -> Q.

Definition scale (f : FeatureVector) : list Q :=
  let '(c, l24, l168) :=
    target_scaler_transform (current_count f, lag_24 f, lag_168 f) in
  let '(h, d) :=
    time_scaler_transform (inject_Z (hour f), inject_Z (day_of_week f)) in
  [c; l24; l168; h; d].

Definition _prepare_features (timestamp : Timestamp)
    (historical_counts : list Q) : result (list Q) :=
  features <- raw_features timestamp historical_counts ;;
  Ok (scale features).

Definition _generate_historical_data (start_timestamp : Timestamp)
    (current_load : option Q) : list Q :=
  let hours_back := 200%Z in
  let timestamps :=
    date_range (start_timestamp - hours hours_back)%Z
               (start_timestamp - hours 1)%Z in
  let base_load :=
    match current_load with
    | Some l => l
    | None => 1000
    end in
  map (fun kts =>
         let ts := snd kts in
         let hour_factor :=
           1 + 0.3 * np_sin (2 * np_pi * inject_Z (hour_of ts) / 24) in
         let day_factor :=
           1 + 0.2 * np_sin (2 * np_pi * inject_Z (dayofweek ts) / 7) in
         let noise := np_random_normal (fst kts) in
         max2 100 (base_load * hour_factor * day_factor * (1 + noise)))
      (combine (seq 0 (List.length timestamps)) timestamps).

(** The rows of [seq_features] built in one iteration. *)
Definition sequence_features (forecast_time : Timestamp) (context : list Q)
    : result (list (list Q)) :=
  mapM (fun j =>
          let seq_time := (forecast_time - hours (seq_length - j))%Z in
          _prepare_features seq_time context)
       (range seq_length).

(** The loop state: [context], [forecast_timestamps], [forecast_values]. *)
Definition LoopState : Type := list Q * list Timestamp * list Q.

Definition forecast_step (start_timestamp : Timestamp) (st : LoopState)
    (i : Z) : result LoopState :=
  let '(context, forecast_timestamps, forecast_values) := st in
  let forecast_time := (start_timestamp + hours i)%Z in
  features <- _prepare_features forecast_time context ;;
  padded_context <-
    (if (len context <? seq_length)%Z
     then
       lastv <- index_from_end context 1 ;;
       Ok (context ++ repeat lastv (Z.to_nat (seq_length - len context)))
     else Ok (last_n context (Z.to_nat seq_length))) ;;
  seq_features <- sequence_features forecast_time context ;;
  let pred := model seq_features in
  let pred_inv :=
    fst (fst (target_scaler_inverse_transform (pred, 0, 0))) in
  let pred_inv := max2 0 pred_inv in
  Ok (context ++ [pred_inv],
      forecast_timestamps ++ [forecast_time],
      forecast_values ++ [pred_inv]).

Fixpoint for_each (body : LoopState -> Z -> result LoopState)
    (indices : list Z) (st : LoopState) : result LoopState :=
  match indices with
  | [] => Ok st
  | i :: rest => st' <- body st i ;; for_each body rest st'
  end.

(** [now] is what [pd.Timestamp.now()] gives when the call is made. *)
Definition forecast (self : ModelService) (now : Timestamp)
    (hours_ahead : Z) (current_load : option Q)
    (start_timestamp : option Timestamp) : result ForecastResult :=
  if negb (is_model_loaded self) then Raise ValueError
  else
    let start_timestamp :=
      match start_timestamp with
      | None => now
      | Some t => t
      end in
    let historical_counts :=
      _generate_historical_data start_timestamp current_load in
    let context := historical_counts in
    st <- for_each (forecast_step start_timestamp) (range hours_ahead)
            (context, [], []) ;;
    let '(_, forecast_timestamps, forecast_values) := st in
    Ok {|
      forecast_points :=
        map (fun p => {| timestamp := fst p; predicted_load := snd p |})
            (combine forecast_timestamps forecast_values);
      hours_ahead := hours_ahead;
      start_timestamp := start_timestamp
    |}.

End Loaded.

End Service.

(** ** Loading the model *)

Module Loading.

(** What [_load_model] finds: whether each of the three files exists, and
    whether reading them ([joblib.load], [torch.load], [load_state_dict])
    goes through without an exception. *)
Record ModelDir : Set := mkModelDir {
  model_path_exists : bool;
  target_scaler_path_exists : bool;
  time_scaler_path_exists : bool;
  loading_succeeds : bool
}.

Definition _load_model (dir : ModelDir) (self : ModelService) : ModelService :=
  if negb (forallb (fun p => p)
             [model_path_exists dir; target_scaler_path_exists dir;
              time_scaler_path_exists dir])
  then self
  else if loading_succeeds dir
       then {| is_model_loaded := true |}
       else {| is_model_loaded := false |}.

(** [ModelService.__init__] *)
Definition init (dir : ModelDir) : ModelService :=
  _load_model dir {| is_model_loaded := false |}.

Definition is_loaded (self : ModelService) : bool := is_model_loaded self.

End Loading.

(** ** The request handler of app.py *)

Module App.

(** The JSON body: a key that is absent is [None]; no body is the body with
    no key. *)
Record Request : Set := mkRequest {
  req_hours_ahead : option Z;
  req_current_capacity : option Q;
  req_current_load : option Q;
  req_scaling_threshold : option Q
}.

(** [{'success': True, ...}] with status 200, or [{'success': False, ...}]
    with status 500 for the exception that was caught. *)
Inductive Response : Set :=
  | Success (forecast_result : ForecastResult)
            (recommendations : Reply Recommendation)
  | ServerError (e : PyExn).

(** [data.get(key, default)] *)
Definition get {A : Type} (field : option A) (default : A) : A :=
  match field with
  | Some v => v
  | None => default
  end.

Section Handler.

Variable model : list (list Q) -> Q.
Variable target_scaler_transform : Q * Q * Q -> Q * Q * Q.
Variable target_scaler_inverse_transform : Q * Q * Q -> Q * Q * Q.
Variable time_scaler_transform : Q * Q -> Q * Q.
Variable np_pi : Q.
Variable np_sin : Q -> Q.
Variable np_random_normal : nat -> Q.

(** The module-level service object. *)
Variable model_service : ModelService.

Definition get_capacity_recommendations (now : Timestamp) (data : Request)
    : Response :=
  let hours_ahead := get (req_hours_ahead data) 24%Z in
  let current_capacity := get (req_current_capacity data) 5000 in
  let current_load := req_current_load data in
  let scaling_threshold := get (req_scaling_threshold data) 0.8 in
  let attempt :=
    forecast_result <-
      Service.forecast model target_scaler_transform
        target_scaler_inverse_transform time_scaler_transform np_pi np_sin
        np_random_normal model_service now hours_ahead current_load None ;;
    recommendations <-
      CapacityPlanner.get_recommendations (forecast_points forecast_result)
        current_capacity scaling_threshold ;;
    Ok (forecast_result, recommendations) in
  match attempt with
  | Ok (forecast_result, recommendations) =>
      Success forecast_result recommendations
  | Raise e => ServerError e
  end.

End Handler.

End App.

(** ** The advisor in binary64 *)

Module Binary64.

Import PrimFloat.
Local Open Scope float_scope.

(** [x >= y], [x > y], [x < y] of Python; each is false when a side is NaN. *)
Definition ge (x y : float) : bool := y <=? x.
Definition gt (x y : float) : bool := y <? x.
Definition lt (x y : float) : bool := x <? y.

(** [x / y] on Python floats: a zero divisor of either sign raises. *)
Definition truediv (x y : float) : result float :=
  if y =? 0 then Raise ZeroDivisionError else Ok (x / y).

(** The integer [(-1)^neg * m * 2^e] rounded down. *)
Definition floor_of (neg : bool) (m : positive) (e : Z) : Z :=
  Z.shiftl (if neg then Z.neg m else Z.pos m) e.

(** [int(x)]: truncation toward zero; infinity and NaN raise. *)
Definition py_int (x : float) : result Z :=
  match FloatOps.Prim2SF x with
  | SpecFloat.S754_zero _ => Ok 0%Z
  | SpecFloat.S754_infinity _ => Raise OverflowError
  | SpecFloat.S754_nan => Raise ValueError
  | SpecFloat.S754_finite neg m e =>
      Ok (if neg then Z.opp (floor_of false m e) else floor_of false m e)
  end.

(** [math.ceil(x)] *)
Definition py_ceil (x : float) : result Z :=
  match FloatOps.Prim2SF x with
  | SpecFloat.S754_zero _ => Ok 0%Z
  | SpecFloat.S754_infinity _ => Raise OverflowError
  | SpecFloat.S754_nan => Raise ValueError
  | SpecFloat.S754_finite neg m e => Ok (Z.opp (floor_of (negb neg) m e))
  end.

(** [float(n)], the conversion Python applies to an [int] that meets a
    float in an operation. *)
Definition of_int (n : Z) : float :=
  FloatOps.SF2Prim
    (SpecFloat.binary_normalize FloatOps.prec FloatOps.emax n 0 false).

(** [max(l)] and [min(l)]: the first extremal element stays. *)
Definition max2 (a b : float) : float := if gt b a then b else a.
Definition min2 (a b : float) : float := if lt b a then b else a.

Definition py_max (l : list float) : result float :=
  match l with
  | [] => Raise ValueError
  | x :: t => Ok (fold_left max2 t x)
  end.

Definition py_min (l : list float) : result float :=
  match l with
  | [] => Raise ValueError
  | x :: t => Ok (fold_left min2 t x)
  end.

Record ForecastPoint : Set := mkPoint {
  timestamp : Timestamp;
  predicted_load : float
}.

(** [recommended_capacity]: the [int] of a scaling branch, or the capacity
    that was passed in. *)
Inductive Capacity : Set :=
  | Whole (n : Z)
  | Given (x : float).

Definition as_float (c : Capacity) : float :=
  match c with
  | Whole n => of_int n
  | Given x => x
  end.

Record Metrics : Set := mkMetrics {
  max_predicted_load : float;
  avg_predicted_load : float;
  min_predicted_load : float;
  max_utilization : float;
  avg_utilization : float
}.

Inductive Message : Set :=
  | MsgScaleUp (change change_pct : float) (recommended : Capacity)
               (utilization : float)
  | MsgScaleDown (change change_pct : float) (recommended : Capacity)
  | MsgMaintain (current utilization : float).

Record Recommendation : Set := mkRecommendation {
  action : Action;
  urgency : Level;
  current_capacity : float;
  recommended_capacity : Capacity;
  capacity_change : float;
  capacity_change_percent : float;
  metrics : Metrics;
  peak_hours : list ForecastPoint;
  message : Message
}.

Definition _generate_message (action : Action) (urgency : Level)
    (utilization : float) (recommended : Capacity) (current : float)
    : Message :=
  match action with
  | scale_up =>
      let change := as_float recommended - current in
      let change_pct := if gt current 0 then change / current * 100 else 0 in
      MsgScaleUp change change_pct recommended utilization
  | scale_down =>
      let change := current - as_float recommended in
      let change_pct := if gt current 0 then change / current * 100 else 0 in
      MsgScaleDown change change_pct recommended
  | maintain => MsgMaintain current utilization
  end.

Section Advisor.

(** [np.mean] on a list of floats; the order in which NumPy adds is its own. *)
Variable np_mean : list float -> float.

Definition get_recommendations (forecast : list ForecastPoint)
    (current_capacity scaling_threshold : float)
    : result (Reply Recommendation) :=
  match forecast with
  | [] => Ok (ErrorReply "No forecast data provided")
  | _ :: _ =>
      let predicted_loads := map predicted_load forecast in
      max_predicted <- py_max predicted_loads ;;
      let avg_predicted := np_mean predicted_loads in
      min_predicted <- py_min predicted_loads ;;
      let max_utilization :=
        if gt current_capacity 0 then max_predicted / current_capacity else 0 in
      let avg_utilization :=
        if gt current_capacity 0 then avg_predicted / current_capacity else 0 in
      decision <-
        (if ge max_utilization scaling_threshold then
           q <- truediv max_predicted scaling_threshold ;;
           n <- py_int (q * 1.1) ;;
           Ok (scale_up,
               (if ge max_utilization 0.95 then high else medium),
               Whole n)
         else if lt avg_utilization 0.3 then
           n <- py_int (avg_predicted / scaling_threshold * 1.2) ;;
           Ok (scale_down, low, Whole n)
         else
           Ok (maintain, low, Given current_capacity)) ;;
      let '(action, urgency, recommended_capacity) := decision in
      let peak_hours :=
        filter (fun f => ge (predicted_load f) (max_predicted * 0.9)) forecast in
      Ok (Data {|
        action := action;
        urgency := urgency;
        current_capacity := current_capacity;
        recommended_capacity := recommended_capacity;
        capacity_change := as_float recommended_capacity - current_capacity;
        capacity_change_percent :=
          if gt current_capacity 0
          then (as_float recommended_capacity - current_capacity)
               / current_capacity * 100
          else 0;
        metrics := {|
          max_predicted_load := max_predicted;
          avg_predicted_load := avg_predicted;
          min_predicted_load := min_predicted;
          max_utilization := max_utilization;
          avg_utilization := avg_utilization
        |};
        peak_hours := firstn 10 peak_hours;
        message := _generate_message action urgency max_utilization
                     recommended_capacity current_capacity
      |})
  end.

End Advisor.

(** A mean that adds the values in order, first to last; for a single value
    it is that value, as with [np.mean]. *)
Definition mean_in_order (l : list float) : float :=
  fold_left add l 0 / of_int (Z.of_nat (List.length l)).

(** One forecast point at the epoch. *)
Definition single (load : float) : list ForecastPoint :=
  [{| timestamp := 0%Z; predicted_load := load |}].

End Binary64.

Import Num CapacityPlanner Service.

(** ** Orderings and sample inputs *)

(** low < medium < high < critical *)
Definition level_rank (l : Level) : Z :=
  match l with
  | low => 0
  | medium => 1
  | high => 2
  | critical => 3
  end.


(** A loaded service whose model always predicts -5 in normalised space,
    with identity scalers, no seasonal factor and the noise k/1000 on the
    k-th draw. *)
Definition loaded : ModelService := {| is_model_loaded := true |}.
Definition sample_model (x : list (list Q)) : Q := -5.
Definition identity_counts (x : Q * Q * Q) : Q * Q * Q := x.
Definition identity_time (x : Q * Q) : Q * Q := x.
Definition flat_sine (x : Q) : Q := 0.
Definition sample_noise (k : nat) : Q := inject_Z (Z.of_nat k) / 1000.

Definition sample_forecast (hours_ahead : Z) : result ForecastResult :=
  forecast sample_model identity_counts identity_counts identity_time
    3 flat_sine sample_noise loaded 0%Z hours_ahead None None.

(** Four hourly points with loads 1000, 3000, 2900 and 500. *)
Definition ramp_forecast : list ForecastPoint :=
  [mkPoint (hours 0) 1000; mkPoint (hours 1) 3000;
   mkPoint (hours 2) 2900; mkPoint (hours 3) 500].

(** The request handler over the sample model, and a service without a
    model. *)
Definition unloaded : ModelService := {| is_model_loaded := false |}.

Definition sample_handle (service : ModelService) (data : App.Request)
    : App.Response :=
  App.get_capacity_recommendations sample_model identity_counts identity_counts
    identity_time 3 flat_sine sample_noise service 0%Z data.

(** The points that fall in hour [k] of the day, and what it means for a
    dictionary to group the loads of [points] by hour of day: one key per
    hour that occurs, each with the loads of its points in forecast order. *)
Definition hour_is (k : Z) (p : ForecastPoint) : bool :=
  (hour_of (timestamp p) =? k)%Z.

Definition grouped_by_hour (points : list ForecastPoint)
    (d : list (Z * list Q)) : Prop :=
  NoDup (map fst d) /\
  (forall k vs, In (k, vs) d ->
     vs <> [] /\ vs = map predicted_load (filter (hour_is k) points)) /\
  (forall p, In p points -> In (hour_of (timestamp p)) (map fst d)).

(** * Properties *)

(** ** Comparisons and truncation *)

Lemma geb_true (x y : Q) : geb x y = true <-> y <= x.
Proof. unfold geb. apply Qle_bool_iff. Qed.

Lemma geb_false (x y : Q) : geb x y = false <-> x < y.
Proof.
  unfold geb. split; intro H.
  - apply Qnot_le_lt. intro L. apply Qle_bool_iff in L. congruence.
  - destruct (Qle_bool y x) eqn:E; [|reflexivity].
    apply Qle_bool_iff in E. exfalso. exact (Qlt_not_le _ _ H E).
Qed.

Lemma ltb_true (x y : Q) : ltb x y = true <-> x < y.
Proof.
  unfold ltb. rewrite negb_true_iff. apply (geb_false x y).
Qed.

Lemma ltb_false (x y : Q) : ltb x y = false <-> y <= x.
Proof.
  unfold ltb. rewrite negb_false_iff. apply (geb_true x y).
Qed.

Lemma gtb_true (x y : Q) : gtb x y = true <-> y < x.
Proof. unfold gtb. apply ltb_true. Qed.

Lemma gtb_false (x y : Q) : gtb x y = false <-> x <= y.
Proof. unfold gtb. apply ltb_false. Qed.

Lemma truediv_nonzero (x y : Q) : ~ y == 0 -> truediv x y = Ok (x / y).
Proof.
  intro H. unfold truediv. destruct (Qeq_bool y 0) eqn:E; [|reflexivity].
  apply Qeq_bool_iff in E. contradiction.
Qed.

Lemma truediv_zero (x y : Q) : y == 0 -> truediv x y = Raise ZeroDivisionError.
Proof.
  intro H. unfold truediv. apply Qeq_bool_iff in H. rewrite H. reflexivity.
Qed.

Lemma np_truediv_nonzero (x y : Q) : ~ y == 0 -> np_truediv x y = Finite (x / y).
Proof.
  intro H. unfold np_truediv. destruct (Qeq_bool y 0) eqn:E; [|reflexivity].
  apply Qeq_bool_iff in E. contradiction.
Qed.

Lemma trunc_nonneg (x : Q) : 0 <= x -> trunc x = Qfloor x.
Proof.
  destruct x as [a b]. unfold Qle, trunc, Qfloor. simpl. intro H.
  apply Z.quot_div_nonneg; lia.
Qed.

Lemma trunc_neg (x : Q) : x < 0 -> trunc x = Qceiling x.
Proof.
  destruct x as [a b]. unfold Qlt, trunc, Qceiling, Qfloor. simpl. intro H.
  rewrite <- (Z.opp_involutive a) at 1.
  rewrite Z.quot_opp_l by lia.
  f_equal. apply Z.quot_div_nonneg; lia.
Qed.

Lemma trunc_monotone (x y : Q) : x <= y -> (trunc x <= trunc y)%Z.
Proof.
  intro H.
  destruct (Qlt_le_dec x 0) as [Hx|Hx]; destruct (Qlt_le_dec y 0) as [Hy|Hy].
  - rewrite !trunc_neg by assumption. apply Qceiling_resp_le. exact H.
  - rewrite (trunc_neg x Hx), (trunc_nonneg y Hy).
    apply Z.le_trans with (Qceiling 0).
    + apply Qceiling_resp_le. lra.
    + apply (Qfloor_resp_le 0 y). exact Hy.
  - exfalso. lra.
  - rewrite !trunc_nonneg by assumption. apply Qfloor_resp_le. exact H.
Qed.

(** ** The capacity advisor *)

Lemma py_max_nonempty (l : list Q) : l <> [] -> exists m, py_max l = Ok m.
Proof.
  destruct l as [|x t]; [congruence|]. intros _. eexists. reflexivity.
Qed.

Lemma nonempty_loads (f : list ForecastPoint) :
  f <> [] -> map predicted_load f <> [].
Proof. destruct f; simpl; congruence. Qed.

Ltac unfold_recommendations p f :=
  unfold get_recommendations;
  change (py_max (map predicted_load (p :: f)))
    with (Ok (fold_left max2 (map predicted_load f) (predicted_load p)));
  change (py_min (map predicted_load (p :: f)))
    with (Ok (fold_left min2 (map predicted_load f) (predicted_load p)));
  cbn [bind].

(** The guard of get_recommendations: with a capacity that is not positive
    both utilizations and the percentage are 0, and under a positive threshold
    the action is scale_down. *)
Lemma get_recommendations_guarded (f : list ForecastPoint) (cap thr : Q) :
  f <> [] -> cap <= 0 -> 0 < thr ->
  exists r,
    get_recommendations f cap thr = Ok (Data r) /\
    max_utilization (metrics r) = 0 /\
    avg_utilization (metrics r) = 0 /\
    action r = scale_down /\
    capacity_change_percent r = 0.
Proof.
  intros Hf Hcap Hthr.
  destruct f as [|p f]; [congruence|].
  unfold_recommendations p f.
  rewrite (proj2 (gtb_false cap 0) Hcap).
  assert (E1 : geb 0 thr = false) by (apply geb_false; exact Hthr).
  assert (E2 : ltb 0 0.3 = true) by reflexivity.
  rewrite E1, E2.
  rewrite np_truediv_nonzero by lra.
  cbn [np_mul np_int bind]. eexists. split; [reflexivity|].
  cbn. repeat split.
Qed.

(** C7: analyze divides every load by the capacity without the guard that
    get_recommendations has, so a zero capacity raises ZeroDivisionError on
    every non-empty forecast. *)
Theorem analyze_zero_capacity_raises
    (np_sqrt : Q -> Q) (p : ForecastPoint) (f : list ForecastPoint) (thr : Q) :
  analyze np_sqrt (p :: f) 0 thr = Raise ZeroDivisionError.
Proof. reflexivity. Qed.

(** ** Scenarios and risk *)


Lemma fraction_monotone (a b total : Z) :
  (0 < total)%Z -> (a <= b)%Z ->
  inject_Z a / inject_Z total <= inject_Z b / inject_Z total.
Proof.
  intros Ht Hab. unfold Qdiv. apply Qmult_le_compat_r.
  - rewrite <- Zle_Qle. exact Hab.
  - apply Qlt_le_weak. apply Qinv_lt_0_compat.
    change 0 with (inject_Z 0). rewrite <- Zlt_Qlt. exact Ht.
Qed.

(** C9: with the total and the over-capacity hours fixed, more critical hours
    never give a lower risk level. *)
Theorem assess_risk_monotone (critical1 critical2 over total : Z) :
  (0 < total)%Z -> (critical1 <= critical2)%Z ->
  (level_rank (_assess_risk critical1 over total)
   <= level_rank (_assess_risk critical2 over total))%Z.
Proof.
  intros Ht Hc. unfold _assess_risk.
  assert (Hgt : (total >? 0)%Z = true) by (apply Z.gtb_lt; exact Ht).
  rewrite Hgt.
  pose proof (fraction_monotone critical1 critical2 total Ht Hc) as Hfrac.
  set (c1 := inject_Z critical1 / inject_Z total) in *.
  set (c2 := inject_Z critical2 / inject_Z total) in *.
  set (o := inject_Z over / inject_Z total).
  destruct (gtb c1 0.1) eqn:E1.
  - apply gtb_true in E1.
    assert (E2 : gtb c2 0.1 = true) by (apply gtb_true; lra).
    rewrite E2. reflexivity.
  - destruct (gtb c2 0.1); destruct (gtb o 0.2); destruct (gtb o 0.05);
      cbn [level_rank]; lia.
Qed.

(** ** The feature encoder *)

Lemma mapM_ok {A B : Type} (f : A -> result B) (g : A -> B) (l : list A) :
  (forall a, f a = Ok (g a)) -> mapM f l = Ok (map g l).
Proof.
  intro H. induction l as [|a t IH]; [reflexivity|].
  cbn [mapM map]. rewrite H, IH. reflexivity.
Qed.

Lemma index_from_end_nth (l : list Q) (k : nat) :
  (1 <= k <= List.length l)%nat ->
  index_from_end l k = Ok (nth (List.length l - k) l 0).
Proof.
  intros [H1 H2]. unfold index_from_end.
  rewrite (proj2 (Nat.leb_le _ _) H2).
  rewrite (nth_error_nth' l 0) by lia. reflexivity.
Qed.

Lemma nth_last (l : list Q) :
  nth (List.length l - 1) l 0 = last l 0.
Proof.
  induction l as [|x [|y t] IH]; [reflexivity | reflexivity |].
  change (last (x :: y :: t) 0) with (last (y :: t) 0).
  rewrite <- IH.
  replace (List.length (x :: y :: t) - 1)%nat
    with (S (List.length (y :: t) - 1)) by (cbn [List.length]; lia).
  reflexivity.
Qed.

Lemma index_from_end_last (l : list Q) :
  l <> [] -> index_from_end l 1 = Ok (last l 0).
Proof.
  intro H. rewrite index_from_end_nth.
  - rewrite nth_last. reflexivity.
  - destruct l; [congruence | cbn [List.length]; lia].
Qed.

(** The lag that [raw_features] reads [k] hours back. *)
Lemma lag_value (l : list Q) (k : nat) :
  l <> [] -> (1 <= k)%nat ->
  (if (Z.of_nat k <=? len l)%Z then index_from_end l k else index_from_end l 1)
  = Ok (if (Z.of_nat k <=? len l)%Z
        then nth (List.length l - k) l 0 else last l 0).
Proof.
  intros Hl Hk. unfold len.
  destruct (Z.leb_spec (Z.of_nat k) (Z.of_nat (List.length l))) as [H|H].
  - apply index_from_end_nth. lia.
  - apply index_from_end_last. exact Hl.
Qed.

Lemma raw_features_nonempty (ts : Timestamp) (l : list Q) :
  l <> [] ->
  raw_features ts l =
  Ok {| current_count := last l 0;
        lag_24 := if (24 <=? len l)%Z
                  then nth (List.length l - 24) l 0 else last l 0;
        lag_168 := if (168 <=? len l)%Z
                   then nth (List.length l - 168) l 0 else last l 0;
        hour := hour_of ts;
        day_of_week := dayofweek ts |}.
Proof.
  intro Hl. unfold raw_features.
  pose proof (lag_value l 24 Hl ltac:(lia)) as H24.
  pose proof (lag_value l 168 Hl ltac:(lia)) as H168.
  change (Z.of_nat 24) with 24%Z in H24.
  change (Z.of_nat 168) with 168%Z in H168.
  rewrite H24, H168. cbn [bind].
  rewrite (index_from_end_last l Hl). reflexivity.
Qed.

(** C5, as the code has it: on a non-empty history shorter than 24
    (respectively 168) points, lag_24 (respectively lag_168) is the most recent
    point of the history, the same value as current_count. *)
Theorem short_history_lags_use_latest (ts : Timestamp) (history : list Q) :
  history <> [] ->
  exists fv,
    raw_features ts history = Ok fv /\
    current_count fv = last history 0 /\
    ((len history < 24)%Z -> lag_24 fv = last history 0) /\
    ((len history < 168)%Z -> lag_168 fv = last history 0).
Proof.
  intro Hh. eexists. split; [apply raw_features_nonempty; exact Hh|].
  cbn [current_count lag_24 lag_168].
  split; [reflexivity|]. split; intro Hlen.
  - destruct (Z.leb_spec 24 (len history)); [lia | reflexivity].
  - destruct (Z.leb_spec 168 (len history)); [lia | reflexivity].
Qed.

Section Encoder.

Variable target_scaler_transform : Q * Q * Q -> Q * Q * Q.
Variable time_scaler_transform : Q * Q -> Q * Q.

Local Abbreviation encode :=
  (_prepare_features target_scaler_transform time_scaler_transform).
Local Abbreviation rows :=
  (sequence_features target_scaler_transform time_scaler_transform).
Local Abbreviation scaled :=
  (scale target_scaler_transform time_scaler_transform).

Lemma prepare_features_nonempty (ts : Timestamp) (context : list Q) :
  context <> [] ->
  exists fv, raw_features ts context = Ok fv /\ encode ts context = Ok (scaled fv).
Proof.
  intro Hc. unfold _prepare_features.
  rewrite (raw_features_nonempty ts context Hc). cbn [bind].
  eexists. split; reflexivity.
Qed.

Lemma sequence_features_rows (forecast_time : Timestamp) (context : list Q) :
  context <> [] ->
  rows forecast_time context =
  Ok (map (fun j => scaled
             {| current_count := last context 0;
                lag_24 := if (24 <=? len context)%Z
                          then nth (List.length context - 24) context 0
                          else last context 0;
                lag_168 := if (168 <=? len context)%Z
                           then nth (List.length context - 168) context 0
                           else last context 0;
                hour := hour_of (forecast_time - hours (seq_length - j))%Z;
                day_of_week :=
                  dayofweek (forecast_time - hours (seq_length - j))%Z |})
          (range seq_length)).
Proof.
  intro Hc. unfold sequence_features. apply mapM_ok. intro j.
  unfold _prepare_features.
  rewrite (raw_features_nonempty _ context Hc). reflexivity.
Qed.

(** C4: what the loop builds.  The 48 rows of one iteration are all encoded
    from the whole context, so each carries the current_count, lag_24 and
    lag_168 of the forecast instant; only hour and day of week follow the
    position. *)
Theorem sequence_features_reuse_counts
    (forecast_time : Timestamp) (context : list Q) :
  context <> [] ->
  exists final,
    raw_features forecast_time context = Ok final /\
    rows forecast_time context =
    Ok (map (fun j =>
               let seq_time := (forecast_time - hours (seq_length - j))%Z in
               scaled {| current_count := current_count final;
                         lag_24 := lag_24 final;
                         lag_168 := lag_168 final;
                         hour := hour_of seq_time;
                         day_of_week := dayofweek seq_time |})
            (range seq_length)).
Proof.
  intro Hc. eexists. split; [apply raw_features_nonempty; exact Hc|].
  cbn [current_count lag_24 lag_168].
  apply sequence_features_rows. exact Hc.
Qed.

End Encoder.

(** ** The autoregressive loop *)

Lemma max2_zero_nonneg (x : Q) : 0 <= max2 0 x.
Proof.
  unfold max2. destruct (gtb x 0) eqn:E.
  - apply gtb_true in E. lra.
  - lra.
Qed.

Lemma range_length (n : Z) : List.length (range n) = Z.to_nat n.
Proof. unfold range. rewrite length_map, length_seq. reflexivity. Qed.

Lemma range_nth_error (n i : Z) :
  (0 <= i < n)%Z -> nth_error (range n) (Z.to_nat i) = Some i.
Proof.
  intro H. unfold range. rewrite nth_error_map, nth_error_seq.
  rewrite (proj2 (Nat.ltb_lt _ _)) by lia.
  cbn [option_map]. f_equal. lia.
Qed.

Lemma map_fst_combine {A B : Type} (l : list A) (l' : list B) :
  List.length l = List.length l' -> map fst (combine l l') = l.
Proof.
  revert l'. induction l as [|a t IH]; intros [|b t'] H; try discriminate.
  - reflexivity.
  - cbn [combine map fst]. f_equal. apply IH. injection H as H. exact H.
Qed.

Lemma map_snd_combine {A B : Type} (l : list A) (l' : list B) :
  List.length l = List.length l' -> map snd (combine l l') = l'.
Proof.
  revert l'. induction l as [|a t IH]; intros [|b t'] H; try discriminate.
  - reflexivity.
  - cbn [combine map snd]. f_equal. apply IH. injection H as H. exact H.
Qed.

Lemma date_range_back (start : Timestamp) :
  List.length (date_range (start - hours 200)%Z (start - hours 1)%Z) = 200%nat.
Proof.
  unfold date_range. rewrite length_map, range_length.
  replace (start - hours 1 - (start - hours 200))%Z with (199 * ns_per_hour)%Z
    by (unfold hours; lia).
  rewrite Z.div_mul by (unfold ns_per_hour; lia). reflexivity.
Qed.

Section Forecast.

Variable model : list (list Q) -> Q.
Variable target_scaler_transform : Q * Q * Q -> Q * Q * Q.
Variable target_scaler_inverse_transform : Q * Q * Q -> Q * Q * Q.
Variable time_scaler_transform : Q * Q -> Q * Q.
Variable np_pi : Q.
Variable np_sin : Q -> Q.
Variable np_random_normal : nat -> Q.

Local Abbreviation history :=
  (_generate_historical_data np_pi np_sin np_random_normal).
Local Abbreviation step :=
  (forecast_step model target_scaler_transform
     target_scaler_inverse_transform time_scaler_transform).
Local Abbreviation run :=
  (forecast model target_scaler_transform target_scaler_inverse_transform
     time_scaler_transform np_pi np_sin np_random_normal).

Lemma historical_data_length (start : Timestamp) (current_load : option Q) :
  List.length (history start current_load) = 200%nat.
Proof.
  unfold _generate_historical_data.
  rewrite length_map, length_combine, length_seq, Nat.min_id.
  apply date_range_back.
Qed.

Lemma historical_data_floor (start : Timestamp) (current_load : option Q) :
  Forall (fun v => 100 <= v) (history start current_load).
Proof.
  unfold _generate_historical_data. apply Forall_map, Forall_forall.
  intros kts _. unfold max2.
  match goal with |- context [gtb ?x 100] => destruct (gtb x 100) eqn:E end.
  - apply gtb_true in E. lra.
  - lra.
Qed.

Lemma forecast_step_ok (start : Timestamp) (context : list Q)
    (forecast_timestamps : list Timestamp) (forecast_values : list Q) (i : Z) :
  context <> [] ->
  exists v,
    0 <= v /\
    step start (context, forecast_timestamps, forecast_values) i =
    Ok (context ++ [v],
        forecast_timestamps ++ [(start + hours i)%Z],
        forecast_values ++ [v]).
Proof.
  intro Hc. unfold forecast_step.
  destruct (prepare_features_nonempty target_scaler_transform
              time_scaler_transform (start + hours i)%Z context Hc)
    as [fv [_ Hfv]].
  rewrite Hfv. cbn [bind].
  rewrite (index_from_end_last context Hc). cbn [bind].
  rewrite (sequence_features_rows target_scaler_transform
             time_scaler_transform (start + hours i)%Z context Hc).
  destruct (len context <? seq_length)%Z; cbn [bind];
    eexists; (split; [apply max2_zero_nonneg | reflexivity]).
Qed.

Lemma loop_ok (start : Timestamp) (indices : list Z) :
  forall (context : list Q) (forecast_timestamps : list Timestamp)
         (forecast_values : list Q),
  context <> [] ->
  exists preds,
    Forall (fun v => 0 <= v) preds /\
    List.length preds = List.length indices /\
    for_each (step start) indices
      (context, forecast_timestamps, forecast_values) =
    Ok (context ++ preds,
        forecast_timestamps ++ map (fun i => (start + hours i)%Z) indices,
        forecast_values ++ preds).
Proof.
  induction indices as [|i rest IH]; intros context fts fvs Hc.
  - exists []. rewrite !app_nil_r. repeat split. constructor.
  - destruct (forecast_step_ok start context fts fvs i Hc) as [v [Hv Hstep]].
    destruct (IH (context ++ [v]) (fts ++ [(start + hours i)%Z]) (fvs ++ [v]))
      as [preds [Hpos [Hlen Hloop]]].
    { destruct context; discriminate. }
    exists (v :: preds). split; [constructor; assumption|].
    split; [cbn [List.length]; congruence|].
    cbn [for_each]. rewrite Hstep. cbn [bind]. rewrite Hloop.
    rewrite <- !app_assoc. reflexivity.
Qed.

(** What a call returns once the model is loaded. *)
Lemma forecast_loaded (self : ModelService) (now : Timestamp)
    (hours_ahead : Z) (current_load : option Q)
    (start_timestamp : option Timestamp) :
  is_model_loaded self = true ->
  let start := match start_timestamp with None => now | Some t => t end in
  exists preds,
    Forall (fun v => 0 <= v) preds /\
    List.length preds = Z.to_nat hours_ahead /\
    run self now hours_ahead current_load start_timestamp =
    Ok {| forecast_points :=
            map (fun p => {| timestamp := fst p; predicted_load := snd p |})
                (combine (map (fun i => (start + hours i)%Z) (range hours_ahead))
                         preds);
          hours_ahead := hours_ahead;
          start_timestamp := start |}.
Proof.
  intros Hloaded start. unfold forecast. rewrite Hloaded. cbn [negb].
  fold start.
  destruct (loop_ok start (range hours_ahead)
              (history start current_load) [] [])
    as [preds [Hpos [Hlen Hloop]]].
  { pose proof (historical_data_length start current_load) as H200.
    intro Hnil. rewrite Hnil in H200. discriminate. }
  rewrite Hloop. cbn [bind app].
  exists preds. rewrite range_length in Hlen. repeat split; assumption.
Qed.

(** C3: with the model loaded and hours_ahead = H >= 1 the call returns H
    points, the first at the resolved start timestamp and each next one
    exactly one hour later, together with hours_ahead and the resolved
    start timestamp. *)
Theorem forecast_hourly_points (self : ModelService) (now : Timestamp)
    (H : Z) (current_load : option Q) (start_timestamp : option Timestamp) :
  is_model_loaded self = true -> (1 <= H)%Z ->
  let start := match start_timestamp with None => now | Some t => t end in
  exists pts,
    run self now H current_load start_timestamp =
    Ok {| forecast_points := pts; hours_ahead := H; start_timestamp := start |} /\
    len pts = H /\
    option_map timestamp (nth_error pts 0) = Some start /\
    (forall i p q,
       nth_error pts i = Some p -> nth_error pts (S i) = Some q ->
       timestamp q = (timestamp p + hours 1)%Z /\
       (timestamp p < timestamp q)%Z) /\
    (forall i, (0 <= i < H)%Z ->
       option_map timestamp (nth_error pts (Z.to_nat i)) =
       Some (start + hours i)%Z).
Proof.
  intros Hloaded HH start.
  destruct (forecast_loaded self now H current_load start_timestamp Hloaded)
    as [preds [_ [Hlen Hrun]]].
  fold start in Hrun.
  set (stamps := map (fun i => (start + hours i)%Z) (range H)) in *.
  set (pts := map (fun p => {| timestamp := fst p; predicted_load := snd p |})
                  (combine stamps preds)) in *.
  exists pts. split; [exact Hrun|].
  assert (Hstamps : map timestamp pts = stamps).
  { unfold pts. rewrite map_map. cbn [timestamp].
    apply map_fst_combine. unfold stamps.
    rewrite length_map, range_length. congruence. }
  assert (Hnth : forall i, (0 <= i < H)%Z ->
            option_map timestamp (nth_error pts (Z.to_nat i)) =
            Some (start + hours i)%Z).
  { intros i Hi. rewrite <- nth_error_map, Hstamps. unfold stamps.
    rewrite nth_error_map, (range_nth_error H i Hi). reflexivity. }
  assert (Hbound : forall i p, nth_error pts i = Some p ->
            (0 <= Z.of_nat i < H)%Z).
  { intros i p Hp. split; [lia|].
    assert (Hi : (i < List.length pts)%nat)
      by (apply nth_error_Some; congruence).
    rewrite <- (length_map timestamp), Hstamps in Hi. unfold stamps in Hi.
    rewrite length_map, range_length in Hi. lia. }
  split; [|split; [|split]].
  - unfold len. rewrite <- (length_map timestamp), Hstamps. unfold stamps.
    rewrite length_map, range_length. lia.
  - change 0%nat with (Z.to_nat 0).
    rewrite (Hnth 0%Z) by lia. unfold hours. f_equal. lia.
  - intros i p q Hp Hq.
    pose proof (Hnth _ (Hbound _ _ Hp)) as Ep.
    pose proof (Hnth _ (Hbound _ _ Hq)) as Eq.
    rewrite Nat2Z.id in Ep, Eq. rewrite Hp in Ep. rewrite Hq in Eq.
    cbn [option_map] in Ep, Eq.
    injection Ep as Ep. injection Eq as Eq. rewrite Ep, Eq.
    unfold hours, ns_per_hour. lia.
  - exact Hnth.
Qed.

(** C6: with the model loaded and hours_ahead = H >= 1, whatever the model
    and the scalers give, all H predicted loads of the returned forecast are
    >= 0. *)
Theorem forecast_loads_nonnegative (self : ModelService) (now : Timestamp)
    (H : Z) (current_load : option Q) (start_timestamp : option Timestamp) :
  is_model_loaded self = true -> (1 <= H)%Z ->
  exists res,
    run self now H current_load start_timestamp = Ok res /\
    len (forecast_points res) = H /\
    Forall (fun p => 0 <= predicted_load p) (forecast_points res).
Proof.
  intros Hloaded HH.
  destruct (forecast_loaded self now H current_load start_timestamp Hloaded)
    as [preds [Hpos [Hlen Hrun]]].
  eexists. split; [exact Hrun|]. cbn [forecast_points]. split.
  - unfold len.
    rewrite length_map, length_combine, length_map, range_length, Hlen.
    lia.
  - apply Forall_map, Forall_forall. intros [ts v] Hin.
    cbn [predicted_load snd].
    apply in_combine_r in Hin.
    rewrite Forall_forall in Hpos. apply Hpos. exact Hin.
Qed.

End Forecast.

(** ** The claims at concrete inputs *)


Lemma assess_risk_monotone_witness :
  (0 < 24)%Z /\ (2 <= 3)%Z /\
  (level_rank (_assess_risk 2 6 24) <= level_rank (_assess_risk 3 6 24))%Z.
Proof.
  split; [reflexivity|]. split; [discriminate|].
  apply (assess_risk_monotone 2 3 6 24); [reflexivity | discriminate].
Defined.

(** With a negative capacity analyze returns, and its own utilization
    statistics are load / capacity while the embedded recommendation reports
    the guarded 0. *)
Example analyze_negative_capacity :
  exists a r,
    analyze (fun x => x) [mkPoint 0%Z 1000] (-5000) 0.8 = Ok (Data a) /\
    stat_max_utilization (utilization_statistics a) == - (1 # 5) /\
    stat_avg_utilization (utilization_statistics a) == - (1 # 5) /\
    recommendations a = Data r /\
    max_utilization (metrics r) = 0 /\
    avg_utilization (metrics r) = 0.
Proof.
  eexists. eexists. split; [vm_compute; reflexivity|].
  cbn. repeat split.
Qed.

(** C5: on the history [1; 2] both lags are 2, the most recent point; the
    earliest point is 1. *)
Lemma short_history_lag_not_earliest :
  exists fv,
    raw_features 0%Z [1; 2] = Ok fv /\
    hd 0 [1; 2] = 1 /\
    ~ lag_24 fv == 1 /\ ~ lag_168 fv == 1.
Proof.
  eexists. split; [reflexivity|]. repeat split; discriminate.
Qed.

Lemma short_history_lags_use_latest_witness :
  [1; 2] <> [] /\
  exists fv,
    raw_features 0%Z [1; 2] = Ok fv /\ lag_24 fv = 2 /\ lag_168 fv = 2.
Proof.
  split; [discriminate|].
  destruct (short_history_lags_use_latest 0%Z [1; 2])
    as [fv (Hfv & _ & H24 & H168)]; [discriminate|].
  exists fv. split; [exact Hfv|].
  split; [apply H24 | apply H168]; reflexivity.
Defined.

(** C4 on the context [10; 20; 30] at hour 50, identity scalers: all 48 rows
    start with the counts 30, 30, 30 of the forecast instant. *)
Lemma sequence_features_reuse_counts_witness :
  [10; 20; 30] <> [] /\
  exists rows,
    sequence_features identity_counts identity_time (hours 50) [10; 20; 30]
    = Ok rows /\
    List.length rows = 48%nat /\
    Forall (fun row => firstn 3 row = [30; 30; 30]) rows.
Proof.
  split; [discriminate|].
  destruct (sequence_features_reuse_counts identity_counts identity_time
              (hours 50) [10; 20; 30]) as [final [Hfinal Hrows]];
    [discriminate|].
  vm_compute in Hfinal. injection Hfinal as Hfinal. subst final.
  eexists. split; [exact Hrows|].
  split; [reflexivity|].
  apply Forall_map, Forall_forall. intros j _. reflexivity.
Defined.

Lemma forecast_hourly_points_witness :
  is_model_loaded loaded = true /\ (1 <= 3)%Z /\
  exists pts,
    sample_forecast 3 =
    Ok {| forecast_points := pts; hours_ahead := 3; start_timestamp := 0%Z |} /\
    len pts = 3%Z /\
    map timestamp pts = [0; 3600000000000; 7200000000000]%Z.
Proof.
  split; [reflexivity|]. split; [discriminate|].
  destruct (forecast_hourly_points sample_model identity_counts identity_counts
              identity_time 3 flat_sine sample_noise loaded 0%Z 3%Z None None)
    as [pts (Hrun & Hlen & _)]; [reflexivity | discriminate |].
  exists pts. split; [exact Hrun|]. split; [exact Hlen|].
  unfold sample_forecast.
  change (forecast sample_model identity_counts identity_counts identity_time
            3 flat_sine sample_noise loaded 0%Z 3%Z None None)
    with (sample_forecast 3) in Hrun.
  vm_compute in Hrun. injection Hrun as Hrun. subst pts. reflexivity.
Defined.

(** The sample model predicts -5 at every step; the forecast holds 0. *)
Lemma forecast_loads_nonnegative_witness :
  is_model_loaded loaded = true /\ (1 <= 3)%Z /\
  exists res,
    sample_forecast 3 = Ok res /\
    len (forecast_points res) = 3%Z /\
    Forall (fun p => 0 <= predicted_load p) (forecast_points res).
Proof.
  split; [reflexivity|]. split; [discriminate|].
  apply (forecast_loads_nonnegative sample_model identity_counts identity_counts
           identity_time 3 flat_sine sample_noise loaded 0%Z 3%Z None None);
    [reflexivity | discriminate].
Defined.

(** * Further properties of the code *)

(** ** Extremes and mean of a list *)

Lemma max2_bounds (a b : Q) : a <= max2 a b /\ b <= max2 a b.
Proof.
  unfold max2. destruct (gtb b a) eqn:E.
  - apply gtb_true in E. split; lra.
  - apply gtb_false in E. split; lra.
Qed.

Lemma min2_bounds (a b : Q) : min2 a b <= a /\ min2 a b <= b.
Proof.
  unfold min2. destruct (ltb b a) eqn:E.
  - apply ltb_true in E. split; lra.
  - apply ltb_false in E. split; lra.
Qed.

Lemma fold_max2_upper (l : list Q) :
  forall x, x <= fold_left max2 l x /\ Forall (fun y => y <= fold_left max2 l x) l.
Proof.
  induction l as [|a t IH]; intro x; cbn [fold_left].
  - split; [lra | constructor].
  - destruct (IH (max2 x a)) as [H1 H2].
    destruct (max2_bounds x a) as [Hx Ha].
    split; [lra|]. constructor; [lra | exact H2].
Qed.

Lemma fold_min2_lower (l : list Q) :
  forall x, fold_left min2 l x <= x /\ Forall (fun y => fold_left min2 l x <= y) l.
Proof.
  induction l as [|a t IH]; intro x; cbn [fold_left].
  - split; [lra | constructor].
  - destruct (IH (min2 x a)) as [H1 H2].
    destruct (min2_bounds x a) as [Hx Ha].
    split; [lra|]. constructor; [lra | exact H2].
Qed.

Lemma fold_max2_in (l : list Q) : forall x, In (fold_left max2 l x) (x :: l).
Proof.
  induction l as [|a t IH]; intro x; cbn [fold_left].
  - left. reflexivity.
  - destruct (IH (max2 x a)) as [H|H].
    + unfold max2 in H at 1. destruct (gtb a x).
      * right. left. exact H.
      * left. exact H.
    + right. right. exact H.
Qed.

Lemma fold_min2_in (l : list Q) : forall x, In (fold_left min2 l x) (x :: l).
Proof.
  induction l as [|a t IH]; intro x; cbn [fold_left].
  - left. reflexivity.
  - destruct (IH (min2 x a)) as [H|H].
    + unfold min2 in H at 1. destruct (ltb a x).
      * right. left. exact H.
      * left. exact H.
    + right. right. exact H.
Qed.

Lemma py_max_spec (l : list Q) (m : Q) :
  py_max l = Ok m -> In m l /\ Forall (fun y => y <= m) l.
Proof.
  destruct l as [|x t]; [discriminate|]. cbn [py_max]. intro H.
  injection H as H. subst m.
  destruct (fold_max2_upper t x) as [H1 H2].
  split; [apply fold_max2_in | constructor; assumption].
Qed.

Lemma py_min_spec (l : list Q) (m : Q) :
  py_min l = Ok m -> In m l /\ Forall (fun y => m <= y) l.
Proof.
  destruct l as [|x t]; [discriminate|]. cbn [py_min]. intro H.
  injection H as H. subst m.
  destruct (fold_min2_lower t x) as [H1 H2].
  split; [apply fold_min2_in | constructor; assumption].
Qed.

Lemma fold_plus_upper (hi : Q) (l : list Q) :
  Forall (fun y => y <= hi) l ->
  forall a, fold_left Qplus l a <= a + hi * inject_Z (len l).
Proof.
  induction 1 as [|y t Hy Ht IH]; intro a; cbn [fold_left].
  - unfold len. cbn [List.length Z.of_nat]. change (inject_Z 0) with 0. lra.
  - specialize (IH (a + y)).
    unfold len in *. cbn [List.length]. rewrite Nat2Z.inj_succ.
    unfold Z.succ. rewrite inject_Z_plus. change (inject_Z 1) with 1.
    lra.
Qed.

Lemma fold_plus_lower (lo : Q) (l : list Q) :
  Forall (fun y => lo <= y) l ->
  forall a, a + lo * inject_Z (len l) <= fold_left Qplus l a.
Proof.
  induction 1 as [|y t Hy Ht IH]; intro a; cbn [fold_left].
  - unfold len. cbn [List.length Z.of_nat]. change (inject_Z 0) with 0. lra.
  - specialize (IH (a + y)).
    unfold len in *. cbn [List.length]. rewrite Nat2Z.inj_succ.
    unfold Z.succ. rewrite inject_Z_plus. change (inject_Z 1) with 1.
    lra.
Qed.

Lemma len_positive {A : Type} (l : list A) : l <> [] -> 0 < inject_Z (len l).
Proof.
  intro H. change 0 with (inject_Z 0). rewrite <- Zlt_Qlt.
  unfold len. destruct l; [congruence | cbn [List.length]; lia].
Qed.

Lemma np_mean_bounds (lo hi : Q) (l : list Q) :
  l <> [] ->
  Forall (fun y => lo <= y) l -> Forall (fun y => y <= hi) l ->
  lo <= np_mean l /\ np_mean l <= hi.
Proof.
  intros Hl Hlo Hhi. unfold np_mean, np_sum.
  pose proof (len_positive l Hl) as Hn.
  pose proof (fold_plus_lower lo l Hlo 0) as H1.
  pose proof (fold_plus_upper hi l Hhi 0) as H2.
  split.
  - apply Qle_shift_div_l; [exact Hn | lra].
  - apply Qle_shift_div_r; [exact Hn | lra].
Qed.

(** ** Recommendations: what a returned record holds *)

Lemma get_recommendations_data
    (f : list ForecastPoint) (cap thr : Q) (r : Recommendation) :
  get_recommendations f cap thr = Ok (Data r) ->
  exists m mn,
    f <> [] /\
    py_max (map predicted_load f) = Ok m /\
    py_min (map predicted_load f) = Ok mn /\
    let avg := np_mean (map predicted_load f) in
    let mu := if gtb cap 0 then m / cap else 0 in
    let au := if gtb cap 0 then avg / cap else 0 in
    metrics r = {| max_predicted_load := m; avg_predicted_load := avg;
                   min_predicted_load := mn; max_utilization := mu;
                   avg_utilization := au |} /\
    current_capacity r = cap /\
    capacity_change r = recommended_capacity r - cap /\
    capacity_change_percent r =
      (if gtb cap 0 then (recommended_capacity r - cap) / cap * 100 else 0) /\
    peak_hours r =
      firstn 10 (filter (fun p => geb (predicted_load p) (m * 0.9)) f) /\
    message r =
      _generate_message (action r) (urgency r) mu (recommended_capacity r) cap /\
    ((geb mu thr = true /\ ~ thr == 0 /\ action r = scale_up /\
      urgency r = (if geb mu 0.95 then high else medium) /\
      recommended_capacity r = inject_Z (trunc (m / thr * 1.1)))
     \/
     (geb mu thr = false /\ ltb au 0.3 = true /\ ~ thr == 0 /\
      action r = scale_down /\ urgency r = low /\
      recommended_capacity r = inject_Z (trunc (avg / thr * 1.2)))
     \/
     (geb mu thr = false /\ ltb au 0.3 = false /\
      action r = maintain /\ urgency r = low /\ recommended_capacity r = cap)).
Proof.
  destruct f as [|p f]; [discriminate|].
  unfold_recommendations p f.
  set (m := fold_left max2 _ _). set (mn := fold_left min2 _ _).
  set (avg := np_mean _).
  set (mu := if gtb cap 0 then m / cap else 0).
  set (au := if gtb cap 0 then avg / cap else 0).
  intro H. exists m, mn.
  split; [discriminate|]. split; [reflexivity|]. split; [reflexivity|].
  cbv zeta. fold avg mu au.
  destruct (geb mu thr) eqn:E1.
  - unfold truediv in H. destruct (Qeq_bool thr 0) eqn:E0; cbn [bind] in H;
      [discriminate|].
    injection H as H. subst r. cbn.
    repeat (split; [reflexivity|]).
    left. repeat split.
    intro Habs. apply Qeq_bool_iff in Habs. congruence.
  - destruct (ltb au 0.3) eqn:E2.
    + unfold np_truediv in H. destruct (Qeq_bool thr 0) eqn:E0.
      * destruct (Qeq_bool avg 0); cbn [np_mul np_int bind] in H; discriminate.
      * cbn [np_mul np_int bind] in H. injection H as H. subst r. cbn.
        repeat (split; [reflexivity|]).
        right. left. repeat split.
        intro Habs. apply Qeq_bool_iff in Habs. congruence.
    + cbn [bind] in H. injection H as H. subst r. cbn.
      repeat (split; [reflexivity|]).
      right. right. repeat split.
Qed.



(** X1: the extremes in the metrics of a returned recommendation bound every
    load of the forecast from both sides, and each is the load of a forecast
    point. *)
Theorem metrics_bound_forecast
    (f : list ForecastPoint) (cap thr : Q) (r : Recommendation) :
  get_recommendations f cap thr = Ok (Data r) ->
  (forall p, In p f ->
     min_predicted_load (metrics r) <= predicted_load p /\
     predicted_load p <= max_predicted_load (metrics r)) /\
  (exists p, In p f /\ predicted_load p = max_predicted_load (metrics r)) /\
  (exists p, In p f /\ predicted_load p = min_predicted_load (metrics r)).
Proof.
  intro H.
  destruct (get_recommendations_data f cap thr r H)
    as (m & mn & Hf & Hm & Hmn & Hmetrics & _).
  rewrite Hmetrics. cbn [max_predicted_load min_predicted_load].
  destruct (py_max_spec _ _ Hm) as [Hin_m Hup].
  destruct (py_min_spec _ _ Hmn) as [Hin_mn Hlow].
  rewrite Forall_forall in Hup, Hlow.
  split; [|split].
  - intros p Hp. split; [apply Hlow | apply Hup]; apply in_map; exact Hp.
  - apply in_map_iff in Hin_m. destruct Hin_m as [p [Hp Hin]].
    exists p. split; assumption.
  - apply in_map_iff in Hin_mn. destruct Hin_mn as [p [Hp Hin]].
    exists p. split; assumption.
Qed.



(** X5: maintain is never answered for a capacity that is not positive; when
    it is answered the recommended capacity is the current one and the
    capacity change and its percentage are zero. *)
Theorem maintain_needs_positive_capacity
    (f : list ForecastPoint) (cap thr : Q) (r : Recommendation) :
  get_recommendations f cap thr = Ok (Data r) ->
  action r = maintain ->
  0 < cap /\ recommended_capacity r = cap /\
  capacity_change r == 0 /\ capacity_change_percent r == 0.
Proof.
  intros H Hact.
  destruct (get_recommendations_data f cap thr r H)
    as (m & mn & _ & _ & _ & _ & _ & Hchange & Hpct & _ & _ & Hcases).
  destruct Hcases as [Hup | [Hdown | (_ & Hge & _ & _ & Hrec)]];
    [destruct Hup as (_ & _ & Ha & _); congruence
    | destruct Hdown as (_ & _ & _ & Ha & _); congruence |].
  rewrite Hchange, Hpct, Hrec.
  destruct (gtb cap 0) eqn:Ecap; [|discriminate Hge].
  apply gtb_true in Ecap.
  split; [exact Ecap|]. split; [reflexivity|]. split; [ring | field; lra].
Qed.

(** X6: the message of a returned recommendation is the one for its action
    and carries the recommendation's own figures: change, percentage,
    recommended capacity and peak utilization for scale_up; the reduction
    (the negated change) and its percentage for scale_down; the current
    capacity and peak utilization for maintain. *)
Theorem message_matches_recommendation
    (f : list ForecastPoint) (cap thr : Q) (r : Recommendation) :
  get_recommendations f cap thr = Ok (Data r) ->
  match action r with
  | scale_up =>
      message r = MsgScaleUp (capacity_change r) (capacity_change_percent r)
                    (recommended_capacity r) (max_utilization (metrics r))
  | scale_down =>
      exists change pct,
        message r = MsgScaleDown change pct (recommended_capacity r) /\
        change == - capacity_change r /\ pct == - capacity_change_percent r
  | maintain =>
      message r = MsgMaintain (current_capacity r) (max_utilization (metrics r))
  end.
Proof.
  intro H.
  destruct (get_recommendations_data f cap thr r H)
    as (m & mn & _ & _ & _ & Hmetrics & Hcur & Hchange & Hpct & _ & Hmsg & _).
  rewrite Hmsg, Hchange, Hpct, Hmetrics, Hcur.
  cbn [max_utilization].
  destruct (action r); cbn [_generate_message].
  - reflexivity.
  - eexists. eexists. split; [reflexivity|]. split; [ring|].
    destruct (gtb cap 0) eqn:Ecap; [|reflexivity].
    apply gtb_true in Ecap. field. lra.
  - reflexivity.
Qed.

(** ** Scenarios *)

Lemma generate_scenarios_nonzero
    (f : list ForecastPoint) (cap thr m : Q) :
  py_max (map predicted_load f) = Ok m -> ~ thr == 0 ->
  _generate_scenarios f cap thr =
  Ok {| conservative := {| capacity := trunc (m / thr * 1.2);
                           description := "20% buffer above peak load";
                           cost_impact := high |};
        balanced := {| capacity := trunc (m / thr * 1.1);
                       description := "10% buffer above peak load";
                       cost_impact := medium |};
        aggressive := {| capacity := trunc (m / thr);
                         description := "Exact capacity for peak load";
                         cost_impact := low |};
        average_based :=
          {| capacity := trunc (np_mean (map predicted_load f) / thr * 1.5);
             description := "Capacity based on average load";
             cost_impact := low |} |}.
Proof.
  intros Hm Hthr. unfold _generate_scenarios. rewrite Hm. cbn [bind].
  rewrite (truediv_nonzero m thr Hthr). cbn [bind].
  rewrite (np_truediv_nonzero _ thr Hthr). reflexivity.
Qed.

(** X7: _generate_scenarios raises ValueError on the empty forecast and
    ZeroDivisionError on a non-empty forecast with threshold zero; whenever it
    returns, the forecast was not empty, the threshold was not zero, and the
    four scenarios carry their fixed cost impacts, whatever the capacity
    argument is. *)
Theorem generate_scenarios_failures
    (f : list ForecastPoint) (cap thr : Q) :
  (f = [] -> _generate_scenarios f cap thr = Raise ValueError) /\
  (f <> [] -> thr == 0 ->
   _generate_scenarios f cap thr = Raise ZeroDivisionError) /\
  (forall s, _generate_scenarios f cap thr = Ok s ->
     f <> [] /\ ~ thr == 0 /\
     cost_impact (conservative s) = high /\
     cost_impact (balanced s) = medium /\
     cost_impact (aggressive s) = low /\
     cost_impact (average_based s) = low).
Proof.
  split; [|split].
  - intro Hf. subst f. reflexivity.
  - intros Hf Hthr. destruct f as [|p f]; [congruence|].
    unfold _generate_scenarios.
    change (py_max (map predicted_load (p :: f)))
      with (Ok (fold_left max2 (map predicted_load f) (predicted_load p))).
    cbn [bind]. rewrite (truediv_zero _ thr Hthr). reflexivity.
  - intros s Hs. destruct f as [|p f]; [discriminate Hs|].
    destruct (Qeq_bool thr 0) eqn:E0.
    + apply Qeq_bool_iff in E0. unfold _generate_scenarios in Hs.
      change (py_max (map predicted_load (p :: f)))
        with (Ok (fold_left max2 (map predicted_load f) (predicted_load p)))
        in Hs.
      cbn [bind] in Hs. rewrite (truediv_zero _ thr E0) in Hs.
      discriminate Hs.
    + assert (Hthr : ~ thr == 0)
        by (intro Habs; apply Qeq_bool_iff in Habs; congruence).
      rewrite (generate_scenarios_nonzero (p :: f) cap thr _ eq_refl Hthr) in Hs.
      injection Hs as Hs. subst s. cbn.
      repeat split; [discriminate | exact Hthr].
Qed.


(** ** Risk *)



(** X10: with the total and the critical hours fixed, more over-capacity
    hours never give a lower risk level. *)
Theorem assess_risk_monotone_over (critical_hours over1 over2 total : Z) :
  (0 < total)%Z -> (over1 <= over2)%Z ->
  (level_rank (_assess_risk critical_hours over1 total)
   <= level_rank (_assess_risk critical_hours over2 total))%Z.
Proof.
  intros Ht Ho. unfold _assess_risk.
  assert (Hgt : (total >? 0)%Z = true) by (apply Z.gtb_lt; exact Ht).
  rewrite Hgt.
  pose proof (fraction_monotone over1 over2 total Ht Ho) as Hfrac.
  set (c := inject_Z critical_hours / inject_Z total).
  set (o1 := inject_Z over1 / inject_Z total) in *.
  set (o2 := inject_Z over2 / inject_Z total) in *.
  destruct (gtb c 0.1); [reflexivity|].
  destruct (gtb o1 0.2) eqn:E1.
  - apply gtb_true in E1.
    rewrite (proj2 (gtb_true o2 0.2)) by lra. reflexivity.
  - destruct (gtb o1 0.05) eqn:E2.
    + apply gtb_true in E2.
      destruct (gtb o2 0.2); [cbn [level_rank]; lia|].
      rewrite (proj2 (gtb_true o2 0.05)) by lra. reflexivity.
    + destruct (gtb o2 0.2); destruct (gtb o2 0.05); cbn [level_rank]; lia.
Qed.

(** ** The full analysis *)

Lemma mapM_length {A B : Type} (f : A -> result B) (l : list A) (l' : list B) :
  mapM f l = Ok l' -> List.length l' = List.length l.
Proof.
  revert l'. induction l as [|a t IH]; intros l' H; cbn [mapM] in H.
  - injection H as H. subst l'. reflexivity.
  - destruct (f a); cbn [bind] in H; [|discriminate].
    destruct (mapM f t); cbn [bind] in H; [|discriminate].
    injection H as H. subst l'. cbn [List.length]. f_equal. apply IH. reflexivity.
Qed.

Lemma filter_length_le {A : Type} (p : A -> bool) (l : list A) :
  (List.length (filter p l) <= List.length l)%nat.
Proof.
  induction l as [|a t IH]; cbn [filter List.length]; [lia|].
  destruct (p a); cbn [List.length]; lia.
Qed.

Lemma filter_length_disjoint {A : Type} (p q : A -> bool) (l : list A) :
  (forall x, p x = true -> q x = false) ->
  (List.length (filter p l) + List.length (filter q l) <= List.length l)%nat.
Proof.
  intro H. induction l as [|a t IH]; cbn [filter List.length]; [lia|].
  destruct (p a) eqn:Ep.
  - rewrite (H a Ep). cbn [List.length]. lia.
  - destruct (q a); cbn [List.length]; lia.
Qed.

Lemma filter_length_subset {A : Type} (p q : A -> bool) (l : list A) :
  (forall x, p x = true -> q x = true) ->
  (List.length (filter p l) <= List.length (filter q l))%nat.
Proof.
  intro H. induction l as [|a t IH]; cbn [filter List.length]; [lia|].
  destruct (p a) eqn:Ep.
  - rewrite (H a Ep). cbn [List.length]. lia.
  - destruct (q a); cbn [List.length]; lia.
Qed.



Lemma max_by_value_spec (items : list (Z * Q)) (pk : Z * Q) :
  max_by_value items = Ok pk ->
  In pk items /\ Forall (fun kv => snd kv <= snd pk) items.
Proof.
  destruct items as [|x t]; [discriminate|]. cbn [max_by_value].
  intro H. injection H as H. subst pk.
  set (g := fun m y : Z * Q => if gtb (snd y) (snd m) then y else m).
  assert (Hgen : forall l x0,
            In (fold_left g l x0) (x0 :: l) /\
            snd x0 <= snd (fold_left g l x0) /\
            Forall (fun kv => snd kv <= snd (fold_left g l x0)) l).
  { induction l as [|a l IH]; intro x0; cbn [fold_left].
    - split; [left; reflexivity|]. split; [lra | constructor].
    - destruct (IH (g x0 a)) as (Hin & Hle & Hall).
      assert (Hg : snd x0 <= snd (g x0 a) /\ snd a <= snd (g x0 a) /\
                   (g x0 a = x0 \/ g x0 a = a)).
      { unfold g. destruct (gtb (snd a) (snd x0)) eqn:E.
        - apply gtb_true in E. repeat split; try lra. right. reflexivity.
        - apply gtb_false in E. repeat split; try lra. left. reflexivity. }
      destruct Hg as (H1 & H2 & H3).
      split; [|split; [lra | constructor; [lra | exact Hall]]].
      destruct Hin as [Hin|Hin].
      + destruct H3 as [H3|H3].
        * left. transitivity (g x0 a); [symmetry; exact H3 | exact Hin].
        * right. left. transitivity (g x0 a); [symmetry; exact H3 | exact Hin].
      + right. right. exact Hin. }
  destruct (Hgen t x) as (Hin & Hle & Hall).
  split; [exact Hin | constructor; assumption].
Qed.

Lemma min_by_value_spec (items : list (Z * Q)) (pk : Z * Q) :
  min_by_value items = Ok pk ->
  In pk items /\ Forall (fun kv => snd pk <= snd kv) items.
Proof.
  destruct items as [|x t]; [discriminate|]. cbn [min_by_value].
  intro H. injection H as H. subst pk.
  set (g := fun m y : Z * Q => if ltb (snd y) (snd m) then y else m).
  assert (Hgen : forall l x0,
            In (fold_left g l x0) (x0 :: l) /\
            snd (fold_left g l x0) <= snd x0 /\
            Forall (fun kv => snd (fold_left g l x0) <= snd kv) l).
  { induction l as [|a l IH]; intro x0; cbn [fold_left].
    - split; [left; reflexivity|]. split; [lra | constructor].
    - destruct (IH (g x0 a)) as (Hin & Hle & Hall).
      assert (Hg : snd (g x0 a) <= snd x0 /\ snd (g x0 a) <= snd a /\
                   (g x0 a = x0 \/ g x0 a = a)).
      { unfold g. destruct (ltb (snd a) (snd x0)) eqn:E.
        - apply ltb_true in E. repeat split; try lra. right. reflexivity.
        - apply ltb_false in E. repeat split; try lra. left. reflexivity. }
      destruct Hg as (H1 & H2 & H3).
      split; [|split; [lra | constructor; [lra | exact Hall]]].
      destruct Hin as [Hin|Hin].
      + destruct H3 as [H3|H3].
        * left. transitivity (g x0 a); [symmetry; exact H3 | exact Hin].
        * right. left. transitivity (g x0 a); [symmetry; exact H3 | exact Hin].
      + right. right. exact Hin. }
  destruct (Hgen t x) as (Hin & Hle & Hall).
  split; [exact Hin | constructor; assumption].
Qed.

Lemma analyze_data (np_sqrt : Q -> Q)
    (f : list ForecastPoint) (cap thr : Q) (a : Analysis) :
  analyze np_sqrt f cap thr = Ok (Data a) ->
  exists utils pk lw,
    f <> [] /\
    mapM (fun load => truediv load cap) (map predicted_load f) = Ok utils /\
    let groups :=
      fold_left
        (fun d p => dict_append (hour_of (timestamp p)) (predicted_load p) d)
        f [] in
    let avg_by_hour := map (fun kv => (fst kv, np_mean (snd kv))) groups in
    max_by_value avg_by_hour = Ok pk /\
    min_by_value avg_by_hour = Ok lw /\
    hourly_patterns a =
      {| peak_hour := fst pk; low_hour := fst lw;
         avg_load_by_hour := avg_by_hour |} /\
    risk_assessment a =
      {| over_capacity_hours := count_if (fun u => geb u thr) utils;
         critical_hours := count_if (fun u => geb u 0.95) utils;
         under_utilized_hours := count_if (fun u => ltb u 0.3) utils;
         risk_level :=
           _assess_risk (count_if (fun u => geb u 0.95) utils)
             (count_if (fun u => geb u thr) utils) (len f) |} /\
    forecast_period_hours (summary a) = len f /\
    get_recommendations f cap thr = Ok (recommendations a) /\
    _generate_scenarios f cap thr = Ok (scaling_scenarios a).
Proof.
  destruct f as [|p f]; [discriminate|].
  unfold analyze. intro H.
  repeat match type of H with
         | bind ?m _ = _ =>
             let E := fresh "E" in
             destruct m eqn:E; cbn [bind] in H; [|discriminate H]
         end.
  injection H as H. subst a.
  eexists. eexists. eexists.
  split; [discriminate|].
  cbn [hourly_patterns risk_assessment summary forecast_period_hours
       recommendations scaling_scenarios].
  repeat split; eassumption.
Qed.


(** X12: the hour counts of a returned analysis lie between 0 and the number
    of forecast points; critical and under-utilized hours never overlap, so
    together they stay within that number; and with a threshold of at most
    0.95 every critical hour is also an over-capacity hour. *)
Theorem risk_counts_bounded (np_sqrt : Q -> Q)
    (f : list ForecastPoint) (cap thr : Q) (a : Analysis) :
  analyze np_sqrt f cap thr = Ok (Data a) ->
  let risk := risk_assessment a in
  let total := forecast_period_hours (summary a) in
  (0 <= over_capacity_hours risk <= total)%Z /\
  (0 <= critical_hours risk <= total)%Z /\
  (0 <= under_utilized_hours risk <= total)%Z /\
  (critical_hours risk + under_utilized_hours risk <= total)%Z /\
  (thr <= 0.95 -> (critical_hours risk <= over_capacity_hours risk)%Z).
Proof.
  intro H.
  destruct (analyze_data np_sqrt f cap thr a H)
    as (utils & pk & lw & _ & Hutils & _ & _ & _ & Hrisk & Htotal & _).
  cbv zeta. rewrite Hrisk, Htotal.
  cbn [over_capacity_hours critical_hours under_utilized_hours].
  apply mapM_length in Hutils. rewrite length_map in Hutils.
  unfold count_if, len. rewrite <- Hutils.
  pose proof (filter_length_le (fun u => geb u thr) utils).
  pose proof (filter_length_le (fun u => geb u 0.95) utils).
  pose proof (filter_length_le (fun u => ltb u 0.3) utils).
  assert (Hdisjoint :
    (List.length (filter (fun u => geb u 0.95) utils)
     + List.length (filter (fun u => ltb u 0.3) utils)
     <= List.length utils)%nat).
  { apply filter_length_disjoint. intros u Hu.
    apply geb_true in Hu. apply ltb_false. lra. }
  repeat split; try lia.
  intro Hthr.
  assert (Hsub :
    (List.length (filter (fun u => geb u 0.95) utils)
     <= List.length (filter (fun u => geb u thr) utils))%nat).
  { apply filter_length_subset. intros u Hu.
    apply geb_true in Hu. apply geb_true. lra. }
  lia.
Qed.

(** *** Grouping by hour of day *)

Lemma dict_append_keys (k : Z) (v : Q) (d : list (Z * list Q)) :
  map fst (dict_append k v d) =
  if existsb (Z.eqb k) (map fst d) then map fst d else map fst d ++ [k].
Proof.
  induction d as [|[k' vs] t IH]; [reflexivity|].
  cbn [dict_append map fst existsb].
  destruct (k =? k')%Z; cbn [orb map fst]; [reflexivity|].
  rewrite IH. destruct (existsb (Z.eqb k) (map fst t)); reflexivity.
Qed.

Lemma existsb_eqb_in (k : Z) (l : list Z) :
  existsb (Z.eqb k) l = true <-> In k l.
Proof.
  rewrite existsb_exists. split.
  - intros [x [Hin Heq]]. apply Z.eqb_eq in Heq. subst x. exact Hin.
  - intro Hin. exists k. split; [exact Hin | apply Z.eqb_refl].
Qed.

Lemma nodup_snoc (k : Z) (l : list Z) :
  NoDup l -> ~ In k l -> NoDup (l ++ [k]).
Proof.
  induction 1 as [|x t Hx Ht IH]; intro Hk; cbn [app].
  - constructor; [intros [] | constructor].
  - constructor.
    + rewrite in_app_iff. intros [Hin|[Heq|[]]]; [contradiction|].
      apply Hk. left. symmetry. exact Heq.
    + apply IH. intro Hin. apply Hk. right. exact Hin.
Qed.

Lemma dict_append_in (k : Z) (v : Q) (d : list (Z * list Q))
    (k' : Z) (vs' : list Q) :
  NoDup (map fst d) -> In (k', vs') (dict_append k v d) ->
  (k' <> k /\ In (k', vs') d) \/
  (k' = k /\ ((exists vs, In (k, vs) d /\ vs' = vs ++ [v]) \/
              (~ In k (map fst d) /\ vs' = [v]))).
Proof.
  induction d as [|[k0 vs0] t IH]; intros Hnd Hin.
  - cbn [dict_append] in Hin. destruct Hin as [Heq|[]].
    injection Heq as Hk Hv. subst k' vs'.
    right. split; [reflexivity|]. right. split; [intros [] | reflexivity].
  - cbn [map fst] in Hnd. inversion Hnd as [|x l Hnotin Hnd' Heq]; subst x l.
    cbn [dict_append] in Hin. destruct (Z.eqb_spec k k0) as [Hk|Hk].
    + subst k0. destruct Hin as [Heq|Hin].
      * injection Heq as Hk' Hv. subst k' vs'.
        right. split; [reflexivity|]. left. exists vs0.
        split; [left; reflexivity | reflexivity].
      * left. split; [|right; exact Hin].
        intro Heq. subst k'. apply Hnotin.
        apply (in_map fst) in Hin. exact Hin.
    + destruct Hin as [Heq|Hin].
      * injection Heq as Hk' Hv. subst k' vs'.
        left. split; [congruence | left; reflexivity].
      * destruct (IH Hnd' Hin) as [[Hne Hin']|[Heq [[vs [Hvs Hv]]|[Hnot Hv]]]].
        -- left. split; [exact Hne | right; exact Hin'].
        -- right. split; [exact Heq|]. left. exists vs.
           split; [right; exact Hvs | exact Hv].
        -- right. split; [exact Heq|]. right. split; [|exact Hv].
           cbn [map fst]. intros [Hk0|Hin'];
             [apply Hk; symmetry; exact Hk0 | contradiction].
Qed.

Lemma grouped_step (pre : list ForecastPoint) (d : list (Z * list Q))
    (p : ForecastPoint) :
  grouped_by_hour pre d ->
  grouped_by_hour (pre ++ [p])
    (dict_append (hour_of (timestamp p)) (predicted_load p) d).
Proof.
  intros (Hnd & Hvals & Hkeys).
  set (k := hour_of (timestamp p)). set (v := predicted_load p).
  assert (Hsub : forall x, In x (map fst d) ->
                           In x (map fst (dict_append k v d))).
  { intros x Hx. rewrite dict_append_keys.
    destruct (existsb (Z.eqb k) (map fst d)); [exact Hx|].
    apply in_or_app. left. exact Hx. }
  assert (Hk : In k (map fst (dict_append k v d))).
  { rewrite dict_append_keys.
    destruct (existsb (Z.eqb k) (map fst d)) eqn:E.
    - apply existsb_eqb_in. exact E.
    - apply in_or_app. right. left. reflexivity. }
  split; [|split].
  - rewrite dict_append_keys.
    destruct (existsb (Z.eqb k) (map fst d)) eqn:E; [exact Hnd|].
    apply nodup_snoc; [exact Hnd|].
    intro Hin. apply existsb_eqb_in in Hin. congruence.
  - intros k' vs' Hin. rewrite filter_app, map_app. cbn [filter].
    unfold hour_is at 2. fold k.
    destruct (dict_append_in k v d k' vs' Hnd Hin)
      as [[Hne Hin']|[Heq [[vs [Hvs Hv]]|[Hnot Hv]]]].
    + destruct (Hvals k' vs' Hin') as [Hnonempty Heq].
      destruct (Z.eqb_spec k k'); [congruence|].
      cbn [map]. rewrite app_nil_r. split; assumption.
    + subst k' vs'. destruct (Hvals k vs Hvs) as [Hnonempty Heq].
      rewrite Z.eqb_refl. cbn [map]. fold v. rewrite <- Heq.
      split; [destruct vs; discriminate | reflexivity].
    + subst k' vs'. rewrite Z.eqb_refl. cbn [map]. fold v.
      split; [discriminate|].
      assert (Hnone : filter (hour_is k) pre = []).
      { destruct (filter (hour_is k) pre) as [|q rest] eqn:E; [reflexivity|].
        exfalso. apply Hnot.
        assert (Hq : In q (filter (hour_is k) pre))
          by (rewrite E; left; reflexivity).
        apply filter_In in Hq. destruct Hq as [Hq Hhour].
        unfold hour_is in Hhour. apply Z.eqb_eq in Hhour.
        rewrite <- Hhour. apply Hkeys. exact Hq. }
      rewrite Hnone. reflexivity.
  - intros q Hq. apply in_app_or in Hq. destruct Hq as [Hq|[Hq|[]]].
    + apply Hsub, Hkeys. exact Hq.
    + subst q. exact Hk.
Qed.

Lemma grouped_loop (f : list ForecastPoint) :
  forall pre d,
  grouped_by_hour pre d ->
  grouped_by_hour (pre ++ f)
    (fold_left
       (fun d p => dict_append (hour_of (timestamp p)) (predicted_load p) d)
       f d).
Proof.
  induction f as [|p t IH]; intros pre d H; cbn [fold_left].
  - rewrite app_nil_r. exact H.
  - replace (pre ++ p :: t) with ((pre ++ [p]) ++ t)
      by (rewrite <- app_assoc; reflexivity).
    apply IH. apply grouped_step. exact H.
Qed.

Lemma grouped_forecast (f : list ForecastPoint) :
  grouped_by_hour f
    (fold_left
       (fun d p => dict_append (hour_of (timestamp p)) (predicted_load p) d)
       f []).
Proof.
  apply (grouped_loop f [] []).
  split; [constructor|]. split; [intros k vs [] | intros p []].
Qed.

Lemma hour_of_range (ts : Timestamp) : (0 <= hour_of ts < 24)%Z.
Proof. unfold hour_of. apply Z.mod_pos_bound. lia. Qed.

(** X13: avg_load_by_hour of a returned analysis has one entry per hour of
    day that occurs in the forecast, without repetition: every entry belongs
    to an hour between 0 and 23 met by some point, its value is the mean of
    the loads of exactly the points of that hour, and every point's hour has
    an entry. *)
Theorem hourly_averages_group_by_hour (np_sqrt : Q -> Q)
    (f : list ForecastPoint) (cap thr : Q) (a : Analysis) :
  analyze np_sqrt f cap thr = Ok (Data a) ->
  let by_hour := avg_load_by_hour (hourly_patterns a) in
  NoDup (map fst by_hour) /\
  (forall k v, In (k, v) by_hour ->
     (0 <= k < 24)%Z /\
     (exists p, In p f /\ hour_of (timestamp p) = k) /\
     v = np_mean (map predicted_load (filter (hour_is k) f))) /\
  (forall p, In p f -> In (hour_of (timestamp p)) (map fst by_hour)).
Proof.
  intro H.
  destruct (analyze_data np_sqrt f cap thr a H)
    as (utils & pk & lw & _ & _ & _ & _ & Hpatterns & _).
  cbv zeta. rewrite Hpatterns. cbn [avg_load_by_hour].
  destruct (grouped_forecast f) as (Hnd & Hvals & Hkeys).
  set (groups := fold_left _ f []) in *.
  assert (Hfst : map fst (map (fun kv : Z * list Q => (fst kv, np_mean (snd kv)))
                            groups) = map fst groups).
  { rewrite map_map. apply map_ext. intros [k vs]. reflexivity. }
  rewrite Hfst. split; [exact Hnd|]. split; [|exact Hkeys].
  intros k v Hin. apply in_map_iff in Hin.
  destruct Hin as [[k' vs] [Heq Hin]]. cbn [fst snd] in Heq.
  injection Heq as Hk Hv. subst k' v.
  destruct (Hvals k vs Hin) as [Hnonempty Hvs].
  assert (Hp : exists p, In p f /\ hour_of (timestamp p) = k).
  { destruct (filter (hour_is k) f) as [|q rest] eqn:E.
    - subst vs. exfalso. apply Hnonempty. reflexivity.
    - assert (Hq : In q (filter (hour_is k) f)) by (rewrite E; left; reflexivity).
      apply filter_In in Hq. destruct Hq as [Hq Hhour].
      exists q. split; [exact Hq|]. apply Z.eqb_eq. exact Hhour. }
  split; [|split; [exact Hp | rewrite Hvs; reflexivity]].
  destruct Hp as [p [_ Hhour]]. rewrite <- Hhour. apply hour_of_range.
Qed.

(** X14: peak_hour and low_hour of a returned analysis are hours listed in
    avg_load_by_hour, and their averages are the largest and the smallest
    of all listed averages. *)
Theorem peak_and_low_hour_extremal (np_sqrt : Q -> Q)
    (f : list ForecastPoint) (cap thr : Q) (a : Analysis) :
  analyze np_sqrt f cap thr = Ok (Data a) ->
  let patterns := hourly_patterns a in
  exists hi lo,
    In (peak_hour patterns, hi) (avg_load_by_hour patterns) /\
    In (low_hour patterns, lo) (avg_load_by_hour patterns) /\
    forall k v, In (k, v) (avg_load_by_hour patterns) -> lo <= v /\ v <= hi.
Proof.
  intro H.
  destruct (analyze_data np_sqrt f cap thr a H)
    as (utils & pk & lw & _ & _ & Hpk & Hlw & Hpatterns & _).
  cbv zeta in *. rewrite Hpatterns. cbn [avg_load_by_hour peak_hour low_hour].
  destruct (max_by_value_spec _ _ Hpk) as [Hin_pk Hmax].
  destruct (min_by_value_spec _ _ Hlw) as [Hin_lw Hmin].
  rewrite Forall_forall in Hmax, Hmin.
  exists (snd pk), (snd lw).
  split; [rewrite <- surjective_pairing; exact Hin_pk|].
  split; [rewrite <- surjective_pairing; exact Hin_lw|].
  intros k v Hin. split.
  - apply (Hmin (k, v) Hin).
  - apply (Hmax (k, v) Hin).
Qed.

(** ** The feature encoder and the synthetic history *)

(** X15: the synthetic history has 200 values, none below 100, whatever the
    baseline load, the seasonal factors and the noise are. *)
Theorem historical_data_shape (np_pi : Q) (np_sin : Q -> Q)
    (np_random_normal : nat -> Q) (start : Timestamp) (current_load : option Q) :
  let history :=
    _generate_historical_data np_pi np_sin np_random_normal start current_load in
  List.length history = 200%nat /\ Forall (fun v => 100 <= v) history.
Proof.
  cbv zeta. split.
  - apply historical_data_length.
  - apply historical_data_floor.
Qed.

(** X16: _prepare_features returns a row of exactly five entries when the
    history is not empty, and raises IndexError when it is empty. *)
Theorem prepare_features_outcome
    (target_scaler_transform : Q * Q * Q -> Q * Q * Q)
    (time_scaler_transform : Q * Q -> Q * Q)
    (ts : Timestamp) (history : list Q) :
  match _prepare_features target_scaler_transform time_scaler_transform
          ts history with
  | Ok row => history <> [] /\ List.length row = 5%nat
  | Raise e => history = [] /\ e = IndexError
  end.
Proof.
  destruct history as [|x t].
  - cbn. split; reflexivity.
  - unfold _prepare_features.
    rewrite (raw_features_nonempty ts (x :: t)) by discriminate.
    cbn [bind]. split; [discriminate|].
    unfold scale.
    destruct (target_scaler_transform _) as [[c l24] l168].
    destruct (time_scaler_transform _) as [h d]. reflexivity.
Qed.

(** X17: on a non-empty history current_count is the last value; with at
    least 24 values lag_24 is the 24th value counted from the end, and with at
    least 168 values lag_168 is the 168th from the end; hour and day of week
    are those of the timestamp, within 0..23 and 0..6. *)
Theorem lags_read_from_end (ts : Timestamp) (history : list Q) :
  history <> [] ->
  exists fv,
    raw_features ts history = Ok fv /\
    current_count fv = nth 0 (rev history) 0 /\
    ((24 <= len history)%Z -> lag_24 fv = nth 23 (rev history) 0) /\
    ((168 <= len history)%Z -> lag_168 fv = nth 167 (rev history) 0) /\
    hour fv = hour_of ts /\ day_of_week fv = dayofweek ts /\
    (0 <= hour fv < 24)%Z /\ (0 <= day_of_week fv < 7)%Z.
Proof.
  intro Hh. eexists. split; [apply raw_features_nonempty; exact Hh|].
  cbn [current_count lag_24 lag_168 hour day_of_week].
  assert (Hlen : (0 < List.length history)%nat)
    by (destruct history; [congruence | cbn [List.length]; lia]).
  split; [|split; [|split; [|split; [|split; [|split]]]]].
  - rewrite <- nth_last. rewrite rev_nth by exact Hlen. reflexivity.
  - intro H24. unfold len in H24.
    destruct (Z.leb_spec 24 (len history)) as [_|Hlt];
      [|unfold len in Hlt; lia].
    rewrite rev_nth by lia. reflexivity.
  - intro H168. unfold len in H168.
    destruct (Z.leb_spec 168 (len history)) as [_|Hlt];
      [|unfold len in Hlt; lia].
    rewrite rev_nth by lia. reflexivity.
  - reflexivity.
  - reflexivity.
  - apply hour_of_range.
  - unfold dayofweek. apply Z.mod_pos_bound. lia.
Qed.

(** ** The forecast call *)

Section Feedback.

Variable model : list (list Q) -> Q.
Variable target_scaler_transform : Q * Q * Q -> Q * Q * Q.
Variable target_scaler_inverse_transform : Q * Q * Q -> Q * Q * Q.
Variable time_scaler_transform : Q * Q -> Q * Q.
Variable np_pi : Q.
Variable np_sin : Q -> Q.
Variable np_random_normal : nat -> Q.

Local Abbreviation history :=
  (_generate_historical_data np_pi np_sin np_random_normal).
Local Abbreviation rows :=
  (sequence_features target_scaler_transform time_scaler_transform).
Local Abbreviation step :=
  (forecast_step model target_scaler_transform
     target_scaler_inverse_transform time_scaler_transform).
Local Abbreviation run :=
  (forecast model target_scaler_transform target_scaler_inverse_transform
     time_scaler_transform np_pi np_sin np_random_normal).

(** The load one step emits from the rows it was given. *)
Local Abbreviation emitted seq_features :=
  (max2 0 (fst (fst (target_scaler_inverse_transform
                       (model seq_features, 0, 0))))).

Lemma forecast_step_value (start : Timestamp) (context : list Q)
    (forecast_timestamps : list Timestamp) (forecast_values : list Q) (i : Z) :
  context <> [] ->
  exists seq_features,
    rows (start + hours i)%Z context = Ok seq_features /\
    step start (context, forecast_timestamps, forecast_values) i =
    Ok (context ++ [emitted seq_features],
        forecast_timestamps ++ [(start + hours i)%Z],
        forecast_values ++ [emitted seq_features]).
Proof.
  intro Hc. unfold forecast_step.
  destruct (prepare_features_nonempty target_scaler_transform
              time_scaler_transform (start + hours i)%Z context Hc)
    as [fv [_ Hfv]].
  rewrite Hfv. cbn [bind].
  rewrite (index_from_end_last context Hc). cbn [bind].
  pose proof (sequence_features_rows target_scaler_transform
                time_scaler_transform (start + hours i)%Z context Hc) as Hrows.
  eexists. split; [exact Hrows|]. rewrite Hrows.
  destruct (len context <? seq_length)%Z; reflexivity.
Qed.

Lemma loop_feedback (start : Timestamp) (indices : list Z) :
  forall (context : list Q) (forecast_timestamps : list Timestamp)
         (forecast_values : list Q),
  context <> [] ->
  exists preds,
    List.length preds = List.length indices /\
    for_each (step start) indices
      (context, forecast_timestamps, forecast_values) =
    Ok (context ++ preds,
        forecast_timestamps ++ map (fun i => (start + hours i)%Z) indices,
        forecast_values ++ preds) /\
    forall k i, nth_error indices k = Some i ->
      exists seq_features,
        rows (start + hours i)%Z (context ++ firstn k preds) = Ok seq_features /\
        nth_error preds k = Some (emitted seq_features).
Proof.
  induction indices as [|i rest IH]; intros context fts fvs Hc.
  - exists []. rewrite !app_nil_r. repeat split.
    intros [|k] j Hj; discriminate Hj.
  - destruct (forecast_step_value start context fts fvs i Hc)
      as [sf [Hsf Hstep]].
    destruct (IH (context ++ [emitted sf]) (fts ++ [(start + hours i)%Z])
                (fvs ++ [emitted sf]))
      as [preds (Hlen & Hloop & Hfeed)].
    { destruct context; discriminate. }
    exists (emitted sf :: preds).
    split; [cbn [List.length]; congruence|]. split.
    + cbn [for_each]. rewrite Hstep. cbn [bind]. rewrite Hloop.
      rewrite <- !app_assoc. reflexivity.
    + intros [|k] j Hj; cbn [nth_error] in Hj.
      * injection Hj as Hj. subst j. exists sf.
        cbn [firstn nth_error]. rewrite app_nil_r. split; [exact Hsf | reflexivity].
      * destruct (Hfeed k j Hj) as [sf' [Hsf' Hnth]].
        exists sf'. cbn [firstn nth_error]. split; [|exact Hnth].
        rewrite <- app_assoc in Hsf'. exact Hsf'.
Qed.

(** X18: forecast raises ValueError exactly when the model is not loaded;
    with the model loaded it returns for every hours_ahead, current_load and
    start, and reports hours_ahead and the resolved start timestamp. *)
Theorem forecast_requires_model (self : ModelService) (now : Timestamp)
    (H : Z) (current_load : option Q) (given_start : option Timestamp) :
  if is_model_loaded self
  then exists res,
         run self now H current_load given_start = Ok res /\
         hours_ahead res = H /\
         start_timestamp res =
           match given_start with None => now | Some t => t end
  else run self now H current_load given_start = Raise ValueError.
Proof.
  destruct (is_model_loaded self) eqn:Hloaded.
  - destruct (forecast_loaded model target_scaler_transform
                target_scaler_inverse_transform time_scaler_transform
                np_pi np_sin np_random_normal
                self now H current_load given_start Hloaded)
      as [preds (_ & _ & Hrun)].
    eexists. split; [exact Hrun|]. split; reflexivity.
  - unfold forecast. rewrite Hloaded. reflexivity.
Qed.

(** X19: with the model loaded and hours_ahead <= 0 the loop does not run and
    the returned forecast is empty. *)
Theorem forecast_no_hours (self : ModelService) (now : Timestamp)
    (H : Z) (current_load : option Q) (start_timestamp : option Timestamp) :
  is_model_loaded self = true -> (H <= 0)%Z ->
  run self now H current_load start_timestamp =
  Ok {| forecast_points := [];
        hours_ahead := H;
        start_timestamp :=
          match start_timestamp with None => now | Some t => t end |}.
Proof.
  intros Hloaded HH. unfold forecast. rewrite Hloaded. cbn [negb].
  assert (Hrange : range H = [])
    by (unfold range; destruct H; [reflexivity | lia | reflexivity]).
  rewrite Hrange. reflexivity.
Qed.

(** X20: the loop feeds its own output back.  The k-th predicted load of the
    returned forecast is the clamped, inverse-scaled model output on the rows
    encoded at start + k hours from the synthetic history followed by the
    k loads predicted before it. *)
Theorem forecast_feeds_back (self : ModelService) (now : Timestamp)
    (H : Z) (current_load : option Q) (start_timestamp : option Timestamp) :
  is_model_loaded self = true ->
  let start := match start_timestamp with None => now | Some t => t end in
  exists res,
    run self now H current_load start_timestamp = Ok res /\
    let preds := map predicted_load (forecast_points res) in
    List.length preds = Z.to_nat H /\
    forall k, (k < Z.to_nat H)%nat ->
      exists seq_features,
        rows (start + hours (Z.of_nat k))%Z
             (history start current_load ++ firstn k preds) = Ok seq_features /\
        nth_error preds k = Some (emitted seq_features).
Proof.
  intros Hloaded start. unfold forecast. rewrite Hloaded. cbn [negb].
  fold start.
  destruct (loop_feedback start (range H) (history start current_load) [] [])
    as [preds (Hlen & Hloop & Hfeed)].
  { pose proof (historical_data_length np_pi np_sin np_random_normal
                  start current_load) as H200.
    intro Hnil. rewrite Hnil in H200. discriminate. }
  rewrite Hloop. cbn [bind app].
  exists {| forecast_points :=
              map (fun p => {| timestamp := fst p; predicted_load := snd p |})
                  (combine (map (fun i => (start + hours i)%Z) (range H)) preds);
            hours_ahead := H;
            start_timestamp := start |}.
  split; [reflexivity|]. cbn [forecast_points].
  rewrite range_length in Hlen.
  assert (Hpreds :
    map predicted_load
      (map (fun p => {| timestamp := fst p; predicted_load := snd p |})
           (combine (map (fun i => (start + hours i)%Z) (range H)) preds))
    = preds).
  { rewrite map_map. cbn [predicted_load].
    apply map_snd_combine. rewrite length_map, range_length. congruence. }
  cbv zeta. rewrite Hpreds. split; [exact Hlen|].
  intros k Hk. apply (Hfeed k (Z.of_nat k)).
  pose proof (range_nth_error H (Z.of_nat k)) as Hnth.
  rewrite Nat2Z.id in Hnth. apply Hnth. lia.
Qed.

End Feedback.

(** ** Loading and the request handler *)


Section Requests.

Variable model : list (list Q) -> Q.
Variable target_scaler_transform : Q * Q * Q -> Q * Q * Q.
Variable target_scaler_inverse_transform : Q * Q * Q -> Q * Q * Q.
Variable time_scaler_transform : Q * Q -> Q * Q.
Variable np_pi : Q.
Variable np_sin : Q -> Q.
Variable np_random_normal : nat -> Q.

Local Abbreviation run :=
  (forecast model target_scaler_transform target_scaler_inverse_transform
     time_scaler_transform np_pi np_sin np_random_normal).
Local Abbreviation handle :=
  (App.get_capacity_recommendations model target_scaler_transform
     target_scaler_inverse_transform time_scaler_transform np_pi np_sin
     np_random_normal).

(** X21: a service constructed by __init__ answers a forecast call exactly
    when all three model files exist and loading them succeeds. *)
Theorem forecast_needs_model_files (dir : Loading.ModelDir) (now : Timestamp)
    (H : Z) (current_load : option Q) (given_start : option Timestamp) :
  (exists res,
     run (Loading.init dir) now H current_load given_start = Ok res)
  <->
  (Loading.model_path_exists dir = true /\
   Loading.target_scaler_path_exists dir = true /\
   Loading.time_scaler_path_exists dir = true /\
   Loading.loading_succeeds dir = true).
Proof.
  assert (Hflag : is_model_loaded (Loading.init dir) =
                  (Loading.model_path_exists dir
                   && Loading.target_scaler_path_exists dir
                   && Loading.time_scaler_path_exists dir
                   && Loading.loading_succeeds dir)%bool).
  { destruct dir as [[] [] [] []]; reflexivity. }
  split.
  - intros [res Hres].
    destruct (is_model_loaded (Loading.init dir)) eqn:Hloaded.
    + symmetry in Hflag. rewrite !andb_true_iff in Hflag. tauto.
    + unfold forecast in Hres. rewrite Hloaded in Hres. discriminate Hres.
  - intros (H1 & H2 & H3 & H4). rewrite H1, H2, H3, H4 in Hflag.
    destruct (forecast_loaded model target_scaler_transform
                target_scaler_inverse_transform time_scaler_transform
                np_pi np_sin np_random_normal
                (Loading.init dir) now H current_load given_start Hflag)
      as [preds (_ & _ & Hrun)].
    eexists. exact Hrun.
Qed.

Lemma handle_loaded (service : ModelService) (now : Timestamp)
    (data : App.Request) :
  is_model_loaded service = true ->
  let H := App.get (App.req_hours_ahead data) 24%Z in
  let cap := App.get (App.req_current_capacity data) 5000 in
  let thr := App.get (App.req_scaling_threshold data) 0.8 in
  exists fr,
    run service now H (App.req_current_load data) None = Ok fr /\
    List.length (forecast_points fr) = Z.to_nat H /\
    Forall (fun p => 0 <= predicted_load p) (forecast_points fr) /\
    hours_ahead fr = H /\ start_timestamp fr = now /\
    handle service now data =
    match get_recommendations (forecast_points fr) cap thr with
    | Ok recommendations => App.Success fr recommendations
    | Raise e => App.ServerError e
    end.
Proof.
  intros Hloaded H cap thr.
  destruct (forecast_loaded model target_scaler_transform
              target_scaler_inverse_transform time_scaler_transform
              np_pi np_sin np_random_normal
              service now H (App.req_current_load data) None Hloaded)
    as [preds (Hpos & Hlen & Hrun)].
  cbv zeta in Hrun.
  eexists. split; [exact Hrun|]. cbn [forecast_points hours_ahead start_timestamp].
  split; [|split; [|split; [reflexivity|split; [reflexivity|]]]].
  - rewrite length_map, length_combine, length_map, range_length, Hlen.
    apply Nat.min_id.
  - apply Forall_map, Forall_forall. intros [ts v] Hin.
    cbn [predicted_load snd]. apply in_combine_r in Hin.
    rewrite Forall_forall in Hpos. apply Hpos. exact Hin.
  - unfold App.get_capacity_recommendations. fold H cap thr.
    rewrite Hrun. cbn [bind forecast_points].
    destruct (get_recommendations _ cap thr); reflexivity.
Qed.

(** X22: with the model loaded and hours_ahead >= 1 (given, or 24 by
    default) the handler relays the advisor: the forecast has exactly
    hours_ahead points starting now, and the answer is success with the
    advisor's reply on those points for the given capacity and threshold
    (5000 and 0.8 by default), or the 500 response with the advisor's
    exception. *)
Theorem handler_relays_advisor (service : ModelService) (now : Timestamp)
    (data : App.Request) :
  is_model_loaded service = true ->
  (1 <= App.get (App.req_hours_ahead data) 24)%Z ->
  exists fr,
    run service now (App.get (App.req_hours_ahead data) 24%Z)
        (App.req_current_load data) None = Ok fr /\
    len (forecast_points fr) = App.get (App.req_hours_ahead data) 24%Z /\
    hours_ahead fr = App.get (App.req_hours_ahead data) 24%Z /\
    start_timestamp fr = now /\
    handle service now data =
    match get_recommendations (forecast_points fr)
            (App.get (App.req_current_capacity data) 5000)
            (App.get (App.req_scaling_threshold data) 0.8) with
    | Ok reply => App.Success fr reply
    | Raise e => App.ServerError e
    end.
Proof.
  intros Hloaded HH.
  destruct (handle_loaded service now data Hloaded)
    as [fr (Hrun & Hlen & _ & Hhours & Hstart & Hhandle)].
  cbv zeta in *.
  exists fr. split; [exact Hrun|].
  split; [unfold len; rewrite Hlen; lia|].
  split; [exact Hhours|]. split; [exact Hstart | exact Hhandle].
Qed.

(** X23: without a loaded model the handler answers every request with the
    500 response for ValueError. *)
Theorem handler_without_model (service : ModelService) (now : Timestamp)
    (data : App.Request) :
  is_model_loaded service = false ->
  handle service now data = App.ServerError ValueError.
Proof.
  intro Hloaded. unfold App.get_capacity_recommendations, forecast.
  rewrite Hloaded. reflexivity.
Qed.

(** X24: with the model loaded and hours_ahead <= 0 the handler still answers
    success: the forecast is empty and the recommendations are the error
    reply of the advisor. *)
Theorem handler_no_hours (service : ModelService) (now : Timestamp)
    (data : App.Request) (H : Z) :
  is_model_loaded service = true ->
  App.req_hours_ahead data = Some H -> (H <= 0)%Z ->
  handle service now data =
  App.Success {| forecast_points := []; hours_ahead := H; start_timestamp := now |}
              (ErrorReply "No forecast data provided").
Proof.
  intros Hloaded Hreq HH.
  destruct (handle_loaded service now data Hloaded)
    as [fr (Hrun & Hlen & _ & _ & _ & Hhandle)].
  cbv zeta in *. rewrite Hreq in *. cbn [App.get] in *.
  unfold forecast in Hrun. rewrite Hloaded in Hrun. cbn [negb] in Hrun.
  assert (Hrange : range H = [])
    by (unfold range; destruct H; [reflexivity | lia | reflexivity]).
  rewrite Hrange in Hrun. cbn [for_each bind combine map] in Hrun.
  injection Hrun as Hrun. subst fr. exact Hhandle.
Qed.


(** X26: with the model loaded, hours_ahead >= 1 and a positive threshold,
    every recommendation the handler answers with has a recommended capacity,
    utilizations and a minimum load that are not negative, whatever the model
    predicts and whatever capacity is given. *)
Theorem handler_recommendation_nonnegative (service : ModelService)
    (now : Timestamp) (data : App.Request)
    (fr : ForecastResult) (r : Recommendation) :
  is_model_loaded service = true ->
  (1 <= App.get (App.req_hours_ahead data) 24)%Z ->
  0 < App.get (App.req_scaling_threshold data) 0.8 ->
  handle service now data = App.Success fr (Data r) ->
  0 <= recommended_capacity r /\
  0 <= max_utilization (metrics r) /\
  0 <= avg_utilization (metrics r) /\
  0 <= min_predicted_load (metrics r).
Proof.
  intros Hloaded HH Hthr Hanswer.
  destruct (handle_loaded service now data Hloaded)
    as [fr0 (_ & Hlen & Hpos & _ & _ & Hhandle)].
  cbv zeta in *.
  set (cap := App.get (App.req_current_capacity data) 5000) in *.
  set (thr := App.get (App.req_scaling_threshold data) 0.8) in *.
  rewrite Hhandle in Hanswer.
  destruct (get_recommendations (forecast_points fr0) cap thr)
    as [reply|e] eqn:Hr; [|discriminate Hanswer].
  injection Hanswer as Hfr Hreply. subst fr0 reply.
  assert (Hne : forecast_points fr <> []).
  { intro Hnil. rewrite Hnil in Hlen. cbn [List.length] in Hlen. lia. }
  destruct (get_recommendations_data _ _ _ r Hr)
    as (m & mn & _ & Hm & Hmn & Hmetrics & _ & _ & _ & _ & _ & Hcases).
  assert (Hloads : Forall (fun y => 0 <= y) (map predicted_load (forecast_points fr))).
  { apply Forall_map. exact Hpos. }
  destruct (py_max_spec _ _ Hm) as [Hin_m Hup].
  destruct (py_min_spec _ _ Hmn) as [Hin_mn _].
  rewrite Forall_forall in Hloads.
  pose proof (Hloads m Hin_m) as Hm0.
  pose proof (Hloads mn Hin_mn) as Hmn0.
  destruct (np_mean_bounds 0 m _ (nonempty_loads _ Hne)
              (proj2 (Forall_forall _ _) Hloads) Hup) as [Havg0 _].
  set (avg := np_mean (map predicted_load (forecast_points fr))) in *.
  assert (Hdiv : forall x, 0 <= x -> 0 <= x / thr).
  { intros x Hx. apply Qle_shift_div_l; [exact Hthr | lra]. }
  assert (Htrunc : forall x, 0 <= x -> 0 <= inject_Z (trunc x)).
  { intros x Hx. apply trunc_monotone in Hx.
    change (trunc 0) with 0%Z in Hx. rewrite Zle_Qle in Hx. exact Hx. }
  rewrite Hmetrics. cbn [max_utilization avg_utilization min_predicted_load].
  assert (Hutil : forall x, 0 <= x -> 0 <= (if gtb cap 0 then x / cap else 0)).
  { intros x Hx. destruct (gtb cap 0) eqn:Ecap; [|lra].
    apply gtb_true in Ecap. apply Qle_shift_div_l; [exact Ecap | lra]. }
  split; [|split; [apply Hutil; exact Hm0
                  | split; [apply Hutil; exact Havg0 | exact Hmn0]]].
  destruct Hcases as [(_ & _ & _ & _ & Hrec)
                     | [(_ & _ & _ & _ & _ & Hrec) | (_ & Hge & _ & _ & Hrec)]];
    rewrite Hrec.
  - apply Htrunc. pose proof (Hdiv m Hm0). lra.
  - apply Htrunc. pose proof (Hdiv avg Havg0). lra.
  - destruct (gtb cap 0) eqn:Ecap; [|discriminate Hge].
    apply gtb_true in Ecap. lra.
Qed.

End Requests.

(** ** The further properties at concrete inputs *)

Lemma metrics_bound_forecast_witness :
  exists r,
    get_recommendations ramp_forecast 5000 0.8 = Ok (Data r) /\
    max_predicted_load (metrics r) = 3000 /\
    min_predicted_load (metrics r) = 500 /\
    exists p, In p ramp_forecast /\
              predicted_load p = max_predicted_load (metrics r).
Proof.
  eexists. split; [vm_compute; reflexivity|].
  split; [reflexivity|]. split; [reflexivity|].
  apply (metrics_bound_forecast ramp_forecast 5000 0.8).
  vm_compute. reflexivity.
Defined.



Lemma maintain_needs_positive_capacity_witness :
  exists r,
    get_recommendations ramp_forecast 5000 0.8 = Ok (Data r) /\
    action r = maintain /\
    recommended_capacity r = 5000 /\
    capacity_change r == 0 /\ capacity_change_percent r == 0.
Proof.
  eexists. split; [vm_compute; reflexivity|].
  split; [reflexivity|].
  apply (maintain_needs_positive_capacity ramp_forecast 5000 0.8);
    [vm_compute; reflexivity | reflexivity].
Defined.

Lemma message_matches_recommendation_witness :
  exists r,
    get_recommendations ramp_forecast (inject_Z 3000) 0.8 = Ok (Data r) /\
    message r = MsgScaleUp (capacity_change r) (capacity_change_percent r)
                  (recommended_capacity r) (max_utilization (metrics r)).
Proof.
  assert (Hreturns : exists r,
            get_recommendations ramp_forecast (inject_Z 3000) 0.8 = Ok (Data r))
    by (eexists; vm_compute; reflexivity).
  destruct Hreturns as [r Hr].
  pose proof (message_matches_recommendation ramp_forecast (inject_Z 3000) 0.8
                r Hr) as Hmsg.
  exists r. split; [exact Hr|].
  assert (Hact : action r = scale_up).
  { vm_compute in Hr. injection Hr as Hr. subst r. reflexivity. }
  rewrite Hact in Hmsg. exact Hmsg.
Defined.


Lemma assess_risk_monotone_over_witness :
  (0 < 24)%Z /\ (1 <= 6)%Z /\
  (level_rank (_assess_risk 0 1 24) <= level_rank (_assess_risk 0 6 24))%Z.
Proof.
  split; [reflexivity|]. split; [discriminate|].
  apply (assess_risk_monotone_over 0 1 6 24); [reflexivity | discriminate].
Defined.


Lemma risk_counts_bounded_witness :
  exists a,
    analyze (fun x => x) ramp_forecast 3000 0.8 = Ok (Data a) /\
    critical_hours (risk_assessment a) = 2%Z /\
    over_capacity_hours (risk_assessment a) = 2%Z /\
    under_utilized_hours (risk_assessment a) = 1%Z /\
    (critical_hours (risk_assessment a) + under_utilized_hours (risk_assessment a)
     <= forecast_period_hours (summary a))%Z.
Proof.
  eexists. split; [vm_compute; reflexivity|].
  split; [reflexivity|]. split; [reflexivity|]. split; [reflexivity|].
  apply (risk_counts_bounded (fun x => x) ramp_forecast 3000 0.8).
  vm_compute. reflexivity.
Defined.

Lemma hourly_averages_group_by_hour_witness :
  exists a,
    analyze (fun x => x) (ramp_forecast ++ [mkPoint (hours 25) 5000]) 5000 0.8
    = Ok (Data a) /\
    map fst (avg_load_by_hour (hourly_patterns a)) = [0; 1; 2; 3]%Z /\
    NoDup (map fst (avg_load_by_hour (hourly_patterns a))).
Proof.
  eexists. split; [vm_compute; reflexivity|].
  split; [reflexivity|].
  apply (hourly_averages_group_by_hour (fun x => x)
           (ramp_forecast ++ [mkPoint (hours 25) 5000]) 5000 0.8).
  vm_compute. reflexivity.
Defined.

Lemma peak_and_low_hour_extremal_witness :
  exists a hi lo,
    analyze (fun x => x) (ramp_forecast ++ [mkPoint (hours 25) 5000]) 5000 0.8
    = Ok (Data a) /\
    peak_hour (hourly_patterns a) = 1%Z /\
    low_hour (hourly_patterns a) = 3%Z /\
    In (peak_hour (hourly_patterns a), hi)
       (avg_load_by_hour (hourly_patterns a)) /\
    In (low_hour (hourly_patterns a), lo)
       (avg_load_by_hour (hourly_patterns a)).
Proof.
  assert (Hreturns : exists a,
            analyze (fun x => x)
              (ramp_forecast ++ [mkPoint (hours 25) 5000]) 5000 0.8
            = Ok (Data a))
    by (eexists; vm_compute; reflexivity).
  destruct Hreturns as [a Ha].
  destruct (peak_and_low_hour_extremal (fun x => x) _ _ _ a Ha)
    as [hi [lo (Hhi & Hlo & _)]].
  exists a, hi, lo. split; [exact Ha|].
  assert (Hhours : peak_hour (hourly_patterns a) = 1%Z /\
                   low_hour (hourly_patterns a) = 3%Z).
  { vm_compute in Ha. injection Ha as Ha. subst a. split; reflexivity. }
  destruct Hhours as [Hpeak Hlow].
  split; [exact Hpeak|]. split; [exact Hlow|]. split; assumption.
Defined.

Lemma lags_read_from_end_witness :
  [10; 20; 30] <> [] /\
  exists fv,
    raw_features (hours 50) [10; 20; 30] = Ok fv /\
    current_count fv = 30 /\ hour fv = 2%Z /\ day_of_week fv = 5%Z.
Proof.
  split; [discriminate|].
  destruct (lags_read_from_end (hours 50) [10; 20; 30])
    as [fv (Hfv & Hcur & _ & _ & Hhour & Hday & _)]; [discriminate|].
  exists fv. split; [exact Hfv|]. split; [exact Hcur|].
  split; [exact Hhour | exact Hday].
Defined.

Lemma forecast_no_hours_witness :
  is_model_loaded loaded = true /\ (0 <= 0)%Z /\
  sample_forecast 0 =
  Ok {| forecast_points := []; hours_ahead := 0; start_timestamp := 0%Z |}.
Proof.
  split; [reflexivity|]. split; [discriminate|].
  apply (forecast_no_hours sample_model identity_counts identity_counts
           identity_time 3 flat_sine sample_noise loaded 0%Z 0%Z None None);
    [reflexivity | discriminate].
Defined.

Lemma forecast_feeds_back_witness :
  is_model_loaded loaded = true /\
  exists res,
    sample_forecast 2 = Ok res /\
    List.length (map predicted_load (forecast_points res)) = 2%nat.
Proof.
  split; [reflexivity|].
  destruct (forecast_feeds_back sample_model identity_counts identity_counts
              identity_time 3 flat_sine sample_noise loaded 0%Z 2%Z None None)
    as [res (Hres & Hlen & _)]; [reflexivity|].
  exists res. split; [exact Hres | exact Hlen].
Defined.

Lemma handler_relays_advisor_witness :
  is_model_loaded loaded = true /\
  exists fr reply,
    sample_handle loaded (App.mkRequest None None (Some 1000) None)
    = App.Success fr reply /\
    len (forecast_points fr) = 24%Z.
Proof.
  split; [reflexivity|].
  destruct (handler_relays_advisor sample_model identity_counts identity_counts
              identity_time 3 flat_sine sample_noise loaded 0%Z
              (App.mkRequest None None (Some 1000) None))
    as [fr (_ & Hlen & _ & _ & Hhandle)]; [reflexivity | discriminate |].
  cbn [App.get App.req_hours_ahead App.req_current_capacity
       App.req_scaling_threshold] in Hlen, Hhandle.
  unfold sample_handle.
  assert (Hreply : exists reply,
            get_recommendations (forecast_points fr) 5000 0.8 = Ok reply).
  { assert (Hne : forecast_points fr <> []).
    { intro Hnil. rewrite Hnil in Hlen. discriminate Hlen. }
    destruct (forecast_points fr) as [|p pts]; [congruence|].
    unfold get_recommendations.
    change (py_max (map predicted_load (p :: pts)))
      with (Ok (fold_left max2 (map predicted_load pts) (predicted_load p))).
    change (py_min (map predicted_load (p :: pts)))
      with (Ok (fold_left min2 (map predicted_load pts) (predicted_load p))).
    cbn [bind].
    destruct (geb _ 0.8); [|destruct (ltb _ 0.3)];
      cbn; eexists; reflexivity. }
  destruct Hreply as [reply Hreply]. rewrite Hreply in Hhandle.
  exists fr, reply. split; [exact Hhandle | exact Hlen].
Defined.

Lemma handler_without_model_witness :
  is_model_loaded unloaded = false /\
  sample_handle unloaded (App.mkRequest (Some 3%Z) None None None)
  = App.ServerError ValueError.
Proof.
  split; [reflexivity|].
  apply (handler_without_model sample_model identity_counts identity_counts
           identity_time 3 flat_sine sample_noise unloaded 0%Z).
  reflexivity.
Defined.

Lemma handler_no_hours_witness :
  is_model_loaded loaded = true /\ (0 <= 0)%Z /\
  sample_handle loaded (App.mkRequest (Some 0%Z) None None None)
  = App.Success
      {| forecast_points := []; hours_ahead := 0; start_timestamp := 0%Z |}
      (ErrorReply "No forecast data provided").
Proof.
  split; [reflexivity|]. split; [discriminate|].
  apply (handler_no_hours sample_model identity_counts identity_counts
           identity_time 3 flat_sine sample_noise loaded 0%Z
           (App.mkRequest (Some 0%Z) None None None) 0%Z);
    [reflexivity | reflexivity | discriminate].
Defined.


Lemma handler_recommendation_nonnegative_witness :
  is_model_loaded loaded = true /\
  exists fr r,
    sample_handle loaded (App.mkRequest (Some 3%Z) (Some (-7)) None None)
    = App.Success fr (Data r) /\
    0 <= recommended_capacity r.
Proof.
  split; [reflexivity|].
  eexists. eexists. split; [vm_compute; reflexivity|].
  eapply (handler_recommendation_nonnegative sample_model identity_counts
            identity_counts identity_time 3 flat_sine sample_noise loaded 0%Z
            (App.mkRequest (Some 3%Z) (Some (-7)) None None));
    [reflexivity | discriminate | reflexivity | vm_compute; reflexivity].
Defined.

Lemma generate_scenarios_failures_witness :
  ramp_forecast <> [] /\ 0 == 0 /\
  _generate_scenarios ramp_forecast 5000 0 = Raise ZeroDivisionError.
Proof.
  split; [discriminate|]. split; [reflexivity|].
  apply (proj1 (proj2 (generate_scenarios_failures ramp_forecast 5000 0)));
    [discriminate | reflexivity].
Defined.

(** * The advisor in binary64 *)

Module Binary64Facts.

Import PrimFloat Binary64.
Local Open Scope float_scope.

Ltac unfold_advisor p f :=
  unfold get_recommendations;
  change (py_max (map predicted_load (p :: f)))
    with (Ok (fold_left max2 (map predicted_load f) (predicted_load p)));
  change (py_min (map predicted_load (p :: f)))
    with (Ok (fold_left min2 (map predicted_load f) (predicted_load p)));
  cbn [bind].

(** C1, as the code has it: on a non-empty forecast with positive capacity
    every returned recommendation has its action selected by the rules in
    order, on the utilizations the code computes in binary64: scale_up when
    max_utilization >= threshold (equality included), with urgency high when
    max_utilization >= 0.95 and medium otherwise; else scale_down with urgency
    low when avg_utilization < 0.3; else maintain with urgency low and the
    current capacity.  Nothing is returned only when the selected scale_up or
    scale_down rule cannot produce its capacity: a zero threshold raises
    ZeroDivisionError in scale_up, and a buffered value that int() refuses
    (infinite or NaN) raises its exception. *)
Theorem decision_rule (np_mean : list float -> float)
    (f : list ForecastPoint) (cap thr : float) :
  f <> [] -> (0 <? cap) = true ->
  exists max_load,
    py_max (map predicted_load f) = Ok max_load /\
    let avg_load := np_mean (map predicted_load f) in
    let max_util := max_load / cap in
    let avg_util := avg_load / cap in
    match get_recommendations np_mean f cap thr with
    | Ok (Data r) =>
        max_utilization (metrics r) = max_util /\
        avg_utilization (metrics r) = avg_util /\
        (ge max_util thr = true ->
           action r = scale_up /\
           urgency r = (if ge max_util 0.95 then high else medium)) /\
        (ge max_util thr = false -> lt avg_util 0.3 = true ->
           action r = scale_down /\ urgency r = low) /\
        (ge max_util thr = false -> lt avg_util 0.3 = false ->
           action r = maintain /\ urgency r = low /\
           recommended_capacity r = Given cap)
    | Ok (ErrorReply _) => False
    | Raise e =>
        (ge max_util thr = true /\
         (((thr =? 0) = true /\ e = ZeroDivisionError) \/
          ((thr =? 0) = false /\ py_int (max_load / thr * 1.1) = Raise e)))
        \/
        (ge max_util thr = false /\ lt avg_util 0.3 = true /\
         py_int (avg_load / thr * 1.2) = Raise e)
    end.
Proof.
  intros Hf Hcap.
  destruct f as [|p f]; [congruence|].
  exists (fold_left max2 (map predicted_load f) (predicted_load p)).
  split; [reflexivity|].
  cbv zeta. unfold_advisor p f.
  set (m := fold_left max2 _ _). set (avg := np_mean _).
  assert (Hgt : gt cap 0 = true) by exact Hcap. rewrite !Hgt.
  destruct (ge (m / cap) thr) eqn:E1.
  - unfold truediv. destruct (thr =? 0) eqn:E0; cbn [bind].
    + left. split; [reflexivity|]. left. split; reflexivity.
    + destruct (py_int (m / thr * 1.1)) as [n|e] eqn:Eint; cbn [bind].
      * cbn [action urgency recommended_capacity metrics max_utilization
             avg_utilization].
        repeat split; intros; try discriminate.
      * left. split; [reflexivity|]. right. split; reflexivity.
  - destruct (lt (avg / cap) 0.3) eqn:E2.
    + destruct (py_int (avg / thr * 1.2)) as [n|e] eqn:Eint; cbn [bind].
      * cbn [action urgency recommended_capacity metrics max_utilization
             avg_utilization].
        repeat split; intros; try discriminate.
      * right. repeat split.
    + cbn [bind action urgency recommended_capacity metrics max_utilization
           avg_utilization].
      repeat split; intros; try discriminate.
Qed.

(** C2, as the code has it: a returned scale_up recommends
    int(max_load / threshold * 1.1) and a returned scale_down
    int(avg_load / threshold * 1.2), where the quotient and the product are
    the rounded binary64 ones and int() truncates toward zero; nothing is
    returned when the threshold is zero in scale_up or int() refuses the
    buffered value. *)
Theorem recommended_capacity_is_int (np_mean : list float -> float)
    (f : list ForecastPoint) (cap thr : float) :
  f <> [] -> (0 <? cap) = true ->
  exists max_load,
    py_max (map predicted_load f) = Ok max_load /\
    let avg_load := np_mean (map predicted_load f) in
    match get_recommendations np_mean f cap thr with
    | Ok (Data r) =>
        (action r = scale_up ->
           exists n, py_int (max_load / thr * 1.1) = Ok n /\
                     recommended_capacity r = Whole n) /\
        (action r = scale_down ->
           exists n, py_int (avg_load / thr * 1.2) = Ok n /\
                     recommended_capacity r = Whole n)
    | Ok (ErrorReply _) => False
    | Raise e =>
        ((thr =? 0) = true /\ e = ZeroDivisionError) \/
        py_int (max_load / thr * 1.1) = Raise e \/
        py_int (avg_load / thr * 1.2) = Raise e
    end.
Proof.
  intros Hf Hcap.
  destruct f as [|p f]; [congruence|].
  exists (fold_left max2 (map predicted_load f) (predicted_load p)).
  split; [reflexivity|].
  cbv zeta. unfold_advisor p f.
  set (m := fold_left max2 _ _). set (avg := np_mean _).
  destruct (ge _ thr).
  - unfold truediv. destruct (thr =? 0) eqn:E0; cbn [bind].
    + left. split; reflexivity.
    + destruct (py_int (m / thr * 1.1)) as [n|e] eqn:Eint; cbn [bind].
      * cbn [action recommended_capacity].
        split; [intros _; exists n; split; reflexivity | discriminate].
      * right. left. reflexivity.
  - destruct (lt _ 0.3).
    + destruct (py_int (avg / thr * 1.2)) as [n|e] eqn:Eint; cbn [bind].
      * cbn [action recommended_capacity].
        split; [discriminate | intros _; exists n; split; reflexivity].
      * right. right. reflexivity.
    + cbn [bind action]. split; discriminate.
Qed.


(** ** At concrete inputs *)

(** Example 1 of the specification with one point: 4000 against a capacity of
    5000 sits exactly on the threshold 0.8. *)
Lemma decision_rule_witness :
  single 4000 <> [] /\ (0 <? 5000) = true /\
  exists r,
    get_recommendations mean_in_order (single 4000) 5000 0.8 = Ok (Data r) /\
    action r = scale_up /\ urgency r = medium.
Proof.
  split; [discriminate|]. split; [reflexivity|].
  destruct (decision_rule mean_in_order (single 4000) 5000 0.8)
    as [m [Hm Hrule]]; [discriminate | reflexivity |].
  vm_compute in Hm. injection Hm as Hm. subst m. cbv zeta in Hrule.
  destruct (get_recommendations mean_in_order (single 4000) 5000 0.8)
    as [[r|msg]|e].
  - exists r. split; [reflexivity|].
    destruct Hrule as (_ & _ & Hup & _).
    destruct Hup as [Ha Hu]; [vm_compute; reflexivity|].
    split; [exact Ha | exact Hu].
  - destruct Hrule.
  - exfalso.
    destruct Hrule as [[_ [[H0 _]|[_ Hint]]]|[Hge _]];
      [vm_compute in H0 | vm_compute in Hint | vm_compute in Hge];
      discriminate.
Defined.

(** C1: one point of 1000 against a capacity of 5000 with threshold 0.  The
    first rule matches (0.2 >= 0), yet no action comes back: the capacity
    formula of scale_up divides by the threshold. *)
Lemma zero_threshold_no_action :
  single 1000 <> [] /\ (0 <? 5000) = true /\
  ge (1000 / 5000) 0 = true /\
  get_recommendations mean_in_order (single 1000) 5000 0
  = Raise ZeroDivisionError.
Proof.
  split; [discriminate|]. repeat split.
Qed.

(** C2: a load of 4001 under threshold 0.5 recommends 8802 where the ceiling
    of the same buffered value is 8803, and a load of 1001 recommends 2402
    where the ceiling is 2403. *)
Lemma recommended_capacity_not_ceil :
  (exists r,
     get_recommendations mean_in_order (single 4001) 5000 0.5 = Ok (Data r) /\
     action r = scale_up /\
     recommended_capacity r = Whole 8802 /\
     py_ceil (4001 / 0.5 * 1.1) = Ok 8803%Z) /\
  (exists r,
     get_recommendations mean_in_order (single 1001) 5000 0.5 = Ok (Data r) /\
     action r = scale_down /\
     recommended_capacity r = Whole 2402 /\
     py_ceil (1001 / 0.5 * 1.2) = Ok 2403%Z).
Proof.
  split; eexists; (split; [vm_compute; reflexivity|]); repeat split.
Qed.

(** One point of 1000 under threshold 0.75: the rounded buffered value is
    just below 1600 and the recommendation is 1599. *)
Lemma recommended_capacity_is_int_witness :
  single 1000 <> [] /\ (0 <? 5000) = true /\
  exists r,
    get_recommendations mean_in_order (single 1000) 5000 0.75 = Ok (Data r) /\
    py_int (1000 / 0.75 * 1.2) = Ok 1599%Z /\
    recommended_capacity r = Whole 1599.
Proof.
  split; [discriminate|]. split; [reflexivity|].
  destruct (recommended_capacity_is_int mean_in_order (single 1000) 5000 0.75)
    as [m [Hm Hrule]]; [discriminate | reflexivity |].
  cbv zeta in Hrule.
  assert (Hact :
    forall r, get_recommendations mean_in_order (single 1000) 5000 0.75
              = Ok (Data r) -> action r = scale_down).
  { intros r Hr. vm_compute in Hr. injection Hr as Hr. subst r. reflexivity. }
  assert (Hreturns :
    exists r, get_recommendations mean_in_order (single 1000) 5000 0.75
              = Ok (Data r)).
  { eexists. vm_compute. reflexivity. }
  destruct (get_recommendations mean_in_order (single 1000) 5000 0.75)
    as [[r|msg]|e].
  - exists r. split; [reflexivity|].
    destruct Hrule as [_ Hdown].
    destruct (Hdown (Hact r eq_refl)) as [n [Hn Hrec]].
    assert (Hmean : mean_in_order (map predicted_load (single 1000)) = 1000)
      by reflexivity.
    rewrite Hmean in Hn.
    assert (Hint : py_int (1000 / 0.75 * 1.2) = Ok 1599%Z)
      by (vm_compute; reflexivity).
    split; [exact Hint|]. rewrite Hint in Hn. injection Hn as Hn. subst n.
    exact Hrec.
  - destruct Hrule.
  - destruct Hreturns as [r Hr]. discriminate Hr.
Defined.



(** Rounding decides at the boundary: 800.8 / 1001 is 0.7999999999999999 in
    binary64, below the threshold 0.8, and the answer is maintain. *)
Example boundary_after_rounding :
  ge (800.8 / 1001) 0.8 = false /\
  exists r,
    get_recommendations mean_in_order (single 800.8) 1001 0.8 = Ok (Data r) /\
    action r = maintain.
Proof.
  split; [reflexivity|]. eexists. split; [vm_compute; reflexivity|].
  reflexivity.
Qed.

(** The rounded product can fall below a whole number that the exact value
    reaches: 2800 / 0.56 * 1.1 recommends 5499. *)
Example rounded_below_whole :
  exists r,
    get_recommendations mean_in_order (single 2800) 5000 0.56 = Ok (Data r) /\
    action r = scale_up /\ recommended_capacity r = Whole 5499.
Proof.
  eexists. split; [vm_compute; reflexivity|]. split; reflexivity.
Qed.

End Binary64Facts.
